(** * ai-codereviewer: the diff printer and the pull-request review pipeline

    A shallow embedding of [src/diffParse.ts] (which holds two programs: the
    stdin diff printer, lines 1-30, and the review pipeline, lines 31-321)
    and the properties of the specification that were checked against it.

    Third-party code (the diff parsers, [minimatch], [JSON.parse], [Number],
    the REST and completion endpoints) is not part of the repository; it
    enters the model as fields of an environment record, and what a theorem
    needs of its behaviour is a hypothesis of that theorem. *)

From Stdlib Require Import List String Ascii Bool Arith ZArith NArith Lia.
From Stdlib Require Import Floats.PrimFloat.
From Stdlib Require Import DecimalString.
Import ListNotations.
Set Warnings "-register-all".
Local Open Scope list_scope.
Local Open Scope string_scope.

(** ** JavaScript strings *)

Definition NL : string := String (ascii_of_nat 10) EmptyString.

(** [Array.prototype.join(sep)] on an array of strings. *)
Definition join (sep : string) (l : list string) : string := String.concat sep l.

(** [n] copies of the newline character. *)
Fixpoint newlines (n : nat) : string :=
  match n with
  | O => ""
  | S k => NL ++ newlines k
  end.

(** ** The diff printer (lines 1-30) *)

Module DiffParse.

(** The change, hunk and file records of [gitdiff-parser], restricted to
    the fields the printer reads. *)
Inductive ChangeType := insert | delete | normal.

Record Change := mkChange { type : ChangeType; content : string }.
Record Hunk := mkHunk { changes : list Change }.
Record File := mkFile { newPath : string; hunks : list Hunk }.

Definition isInsert (c : Change) : bool :=
  match type c with insert => true | _ => false end.

(** Standard output is the text written so far; [console.log(s)] appends
    [s] and a newline. *)
Definition stdout := string.

Definition console_log (s : string) (out : stdout) : stdout := out ++ s ++ NL.

(** Line 16. *)
Definition header (file : File) : string :=
  "+++++++++++ " ++ newPath file ++ " ++++++++++++".

(** Lines 18-22: [block] starts empty inside the hunk callback and
    receives the joined insert contents of that hunk. *)
Definition block (hunk : Hunk) : string :=
  "" ++ join NL (map content (filter isInsert (changes hunk))).

(** Lines 17-25, the body of [file.hunks.forEach]. *)
Definition printHunk (out : stdout) (hunk : Hunk) : stdout :=
  console_log "" (console_log (block hunk) out).

(** Lines 15-27, the body of [files.forEach]. *)
Definition printFile (out : stdout) (file : File) : stdout :=
  console_log NL (fold_left printHunk (hunks file) (console_log (header file) out)).

(** [parseDiff] after [gitDiffParser.parse] has returned [files]. *)
Definition parseDiff (files : list File) : stdout :=
  fold_left printFile files "".

(** Closed forms of what is printed. *)
Definition hunkReport (hunk : Hunk) : string := block hunk ++ NL ++ NL.

Definition fileReport (file : File) : string :=
  header file ++ NL ++ String.concat "" (map hunkReport (hunks file)) ++ NL ++ NL.

(** The inserted lines of a whole file, across its hunks, in order. *)
Definition fileInsertions (file : File) : list string :=
  flat_map (fun h => map content (filter isInsert (changes h))) (hunks file).

Definition onlyNewlines (s : string) : Prop := exists n, s = newlines n.

(** The report of one file as the specification words it: header line,
    one block joining every inserted line of the file, then blank lines. *)
Definition specFileReport (file : File) (out : string) : Prop :=
  exists blanks, onlyNewlines blanks /\
    out = header file ++ NL ++ join NL (fileInsertions file) ++ NL ++ blanks.

Definition noInsertions (files : list File) : Prop :=
  forall f h c, In f files -> In h (hunks f) -> In c (changes h) -> isInsert c = false.

(** Example diffs. *)

(** A file of two hunks with one inserted line each. *)
Definition twoHunks : File :=
  {| newPath := "f";
     hunks := [ {| changes := [ {| type := insert; content := "a" |} ] |};
                {| changes := [ {| type := insert; content := "b" |} ] |} ] |}.

(** A diff of one file whose only hunk deletes a line and keeps one. *)
Definition onlyDeletion : list File :=
  [ {| newPath := "g";
       hunks := [ {| changes := [ {| type := delete; content := "bar" |};
                                  {| type := normal; content := "baz" |} ] |} ] |} ].

(** The example of the specification: one file, one hunk, the lines
    [+foo], [-bar] and [ baz]. *)
Definition fooDiff : list File :=
  [ {| newPath := "h";
       hunks := [ {| changes := [ {| type := insert; content := "foo" |};
                                  {| type := delete; content := "bar" |};
                                  {| type := normal; content := "baz" |} ] |} ] |} ].

(** *** Projections used to state further properties *)

(** A hunk, and a file, with every change that is not an insertion removed. *)
Definition insertsOnly (hunk : Hunk) : Hunk :=
  {| changes := filter isInsert (changes hunk) |}.

Definition insertsOnlyFile (file : File) : File :=
  {| newPath := newPath file; hunks := map insertsOnly (hunks file) |}.

(** A diff whose file mixes insertions with other changes in two hunks. *)
Definition mixedDiff : list File :=
  [ {| newPath := "m";
       hunks := [ {| changes := [ {| type := normal; content := "k" |};
                                  {| type := insert; content := "a" |};
                                  {| type := delete; content := "d" |} ] |};
                  {| changes := [ {| type := insert; content := "b" |};
                                  {| type := insert; content := "c" |} ] |} ] |} ].

End DiffParse.

(** ** The review pipeline (lines 31-321) *)

Module Review.

(** *** JavaScript values *)

Definition DQ : string := String (ascii_of_nat 34) EmptyString.

(** What [JSON.parse] can return. *)
Inductive json :=
| JNull
| JBool (b : bool)
| JNumber (x : float)
| JString (s : string)
| JArray (items : list json)
| JObject (fields : list (string * json)).

(** A value that may be [undefined]. *)
Definition jsval := option json.

Inductive exn :=
| TypeError (msg : string)
| SyntaxError (msg : string)
| RequestError (msg : string).

Inductive result (A : Type) :=
| Ok (a : A)
| Throw (e : exn).
Arguments Ok {A} a.
Arguments Throw {A} e.

Definition rbind {A B} (r : result A) (k : A -> result B) : result B :=
  match r with
  | Ok a => k a
  | Throw e => Throw e
  end.

Notation "x <-? c ;; k" := (rbind c (fun x => k))
  (at level 61, c at next level, right associativity).

(** Truthiness of a parsed value: [null], [false], [0], [NaN] and the
    empty string are falsy. *)
Definition truthy (v : json) : bool :=
  match v with
  | JNull => false
  | JBool b => b
  | JNumber x => negb (PrimFloat.eqb x 0%float || negb (PrimFloat.eqb x x))
  | JString s => negb (s =? "")
  | JArray _ => true
  | JObject _ => true
  end.

Definition isArray (v : json) : bool :=
  match v with JArray _ => true | _ => false end.

(** Template-literal rendering of a string that may be [undefined]. *)
Definition showString (o : option string) : string :=
  match o with Some s => s | None => "undefined" end.

(** The decimal digits of [n]: what a template literal prints for a number
    whose value is the integer [n], as long as [n] is below 2^53 (from there
    on a number no longer holds every integer, and from 10^21 on it prints
    in exponent notation). *)
Definition string_of_N (n : N) : string := NilEmpty.string_of_uint (N.to_uint n).

(** Template-literal rendering of a line number that may be [undefined];
    see [string_of_N] for the range of line numbers it is exact on. *)
Definition showNumber (o : option N) : string :=
  match o with Some n => string_of_N n | None => "undefined" end.

(** [String.prototype.trim], on strings whose characters are code units
    below 256: tab, line feed, vertical tab, form feed, carriage return,
    space and no-break space are removed at both ends. *)
Definition isSpace (c : ascii) : bool :=
  let n := nat_of_ascii c in
  ((9 <=? n)%nat && (n <=? 13)%nat) || (n =? 32)%nat || (n =? 160)%nat.

Fixpoint trimStart (s : string) : string :=
  match s with
  | EmptyString => EmptyString
  | String c r => if isSpace c then trimStart r else s
  end.

Fixpoint trimEnd (s : string) : string :=
  match s with
  | EmptyString => EmptyString
  | String c r =>
      match trimEnd r with
      | EmptyString => if isSpace c then EmptyString else String c EmptyString
      | r' => String c r'
      end
  end.

Definition trim (s : string) : string := trimEnd (trimStart s).

(** [s.split(",")]. *)
Fixpoint split_comma (s : string) : list string :=
  match s with
  | EmptyString => [EmptyString]
  | String c r =>
      if Ascii.eqb c ","%char then EmptyString :: split_comma r
      else match split_comma r with
           | h :: t => String c h :: t
           | [] => [String c EmptyString]
           end
  end.

(** *** Data of the pipeline *)

(** A change of [parse-diff]: additions and deletions carry [ln] (the new,
    respectively the old, line number), context lines carry [ln1] (old) and
    [ln2] (new). *)
Inductive Change :=
| AddChange (ln : N) (content : string)
| DeleteChange (ln : N) (content : string)
| NormalChange (ln1 ln2 : N) (content : string).

Definition ln (c : Change) : option N :=
  match c with
  | AddChange n _ | DeleteChange n _ => Some n
  | NormalChange _ _ _ => None
  end.

Definition ln2 (c : Change) : option N :=
  match c with
  | NormalChange _ n _ => Some n
  | _ => None
  end.

Definition changeContent (c : Change) : string :=
  match c with
  | AddChange _ s | DeleteChange _ s | NormalChange _ _ s => s
  end.

Record Chunk := mkChunk { content : string; changes : list Change }.

Record File := mkFile { chunks : list Chunk; to : option string }.

Record PRDetails := mkPRDetails {
  owner : string;
  repo : string;
  pull_number : Z;
  title : string;
  description : string
}.

Record Comment := mkComment { body : jsval; path : string; line : float }.

(** The fields of the event payload that the pipeline reads. *)
Record EventPayload := mkEventPayload {
  repository_owner_login : string;
  repository_name : string;
  number : Z;
  action : option string;
  before : option string;
  after : option string
}.

Record PullData := mkPullData { pull_title : option string; pull_body : option string }.

Record Message := mkMessage { message_content : option string }.
Record Choice := mkChoice { message : option Message }.
Record ChatResponse := mkChatResponse { choices : list Choice }.

Record ChatMessage := mkChatMessage { role : string; chat_content : string }.
Record Payload := mkPayload { max_tokens : Z; messages : list ChatMessage }.

(** *** Effects *)

Inductive event :=
| EvPullsGet (owner repo : string) (pull_number : Z)
| EvPullsGetDiff (owner repo : string) (pull_number : Z)
| EvCompareCommits (owner repo basehead : string)
| EvRequest (url : string)
| EvAxiosPost (url apiKey apiVersion : string) (payload : Payload)
| EvCreateReview (owner repo : string) (pull_number : Z)
                 (comments : list Comment) (event : string)
| EvConsoleLog (args : list string)
| EvConsoleError (error : exn)
| EvExit (code : Z).

(** A computation yields the events it performed, in order, and either a
    value or the exception that stopped it. *)
Definition M (A : Type) : Type := (list event * result A)%type.

Definition ret {A} (a : A) : M A := ([], Ok a).

Definition bind {A B} (m : M A) (k : A -> M B) : M B :=
  match m with
  | (t, Ok a) => let (t', r) := k a in ((t ++ t')%list, r)
  | (t, Throw e) => (t, Throw e)
  end.

Notation "x <- c ;; k" := (bind c (fun x => k))
  (at level 61, c at next level, right associativity).
Notation "c ;;; k" := (bind c (fun _ => k))
  (at level 61, right associativity).

Definition lift {A} (r : result A) : M A := ([], r).

Definition emit (e : event) : M unit := ([e], Ok tt).

(** An awaited remote call: the call is performed, then it resolves or
    rejects. *)
Definition call {A} (e : event) (r : result A) : M A := ([e], r).

(** [try { body } catch (error) { handler }]. *)
Definition try_catch {A} (body : M A) (handler : exn -> M A) : M A :=
  match body with
  | (t, Ok a) => (t, Ok a)
  | (t, Throw e) => let (t', r) := handler e in ((t ++ t')%list, r)
  end.

(** A [for ... of] loop threading the mutated state. *)
Fixpoint foldM {A S} (f : S -> A -> M S) (l : list A) (s : S) : M S :=
  match l with
  | [] => ret s
  | x :: r => s' <- f s x ;; foldM f r s'
  end.

(** [Array.prototype.some] and [filter] with a callback that can throw. *)
Fixpoint someR {A} (p : A -> result bool) (l : list A) : result bool :=
  match l with
  | [] => Ok false
  | x :: r => b <-? p x ;; if b then Ok true else someR p r
  end.

Fixpoint filterR {A} (p : A -> result bool) (l : list A) : result (list A) :=
  match l with
  | [] => Ok []
  | x :: r => b <-? p x ;; r' <-? filterR p r ;; Ok (if b then x :: r' else r')
  end.

(** [Array.prototype.flatMap] with a callback that can throw. *)
Fixpoint flatMapR {A B} (f : A -> result (list B)) (l : list A) : result (list B) :=
  match l with
  | [] => Ok []
  | x :: r => ys <-? f x ;; zs <-? flatMapR f r ;; Ok (ys ++ zs)%list
  end.

(** *** The environment: everything the program reads or calls *)

Record Env := mkEnv {
  (** [core.getInput(name)] *)
  getInput : string -> string;
  (** [process.env.GITHUB_EVENT_NAME] *)
  GITHUB_EVENT_NAME : option string;
  (** [JSON.parse(readFileSync(GITHUB_EVENT_PATH))]; a payload without
      [repository.owner] stops [getPRDetails] before any call, as an
      unreadable file does. *)
  eventPayload : result EventPayload;
  (** [octokit.pulls.get], plain and with the diff media type *)
  pulls_get : string -> string -> Z -> result PullData;
  pulls_get_diff : string -> string -> Z -> result (option string);
  (** [octokit.repos.compareCommitsWithBasehead]: the [diff_url] field *)
  compareCommitsWithBasehead : string -> string -> string -> result (option string);
  (** [octokit.request({url})]: the [data] field *)
  request : string -> result (option string);
  (** [octokit.pulls.createReview] *)
  createReview : string -> string -> Z -> list Comment -> string -> result unit;
  (** [axios.post(apiUrl, payload, ...)]: the [data] field *)
  axios_post : string -> Payload -> result ChatResponse;
  (** the [parse-diff] library *)
  parseDiff : string -> list File;
  (** the [minimatch] library *)
  minimatch : string -> string -> result bool;
  (** [JSON.parse] *)
  JSON_parse : string -> result json;
  (** [Number(value)] *)
  Number : jsval -> result float
}.

(** *** The program *)

Definition apiUrl : string :=
  "https://southregiontesting.openai.azure.com/openai/deployments/Test1/chat/completions".

Definition GITHUB_TOKEN (E : Env) : string := getInput E "GITHUB_TOKEN".
Definition OPENAI_API_KEY (E : Env) : string := getInput E "OPENAI_API_KEY".

(** [a ?? b] on strings. *)
Definition orElse (o : option string) (d : string) : string :=
  match o with Some s => s | None => d end.

(** Lines 61-77. *)
Definition getPRDetails (E : Env) : M PRDetails :=
  ev <- lift (eventPayload E) ;;
  prResponse <- call (EvPullsGet (repository_owner_login ev) (repository_name ev) (number ev))
                     (pulls_get E (repository_owner_login ev) (repository_name ev) (number ev)) ;;
  ret {| owner := repository_owner_login ev;
         repo := repository_name ev;
         pull_number := number ev;
         title := orElse (pull_title prResponse) "";
         description := orElse (pull_body prResponse) "" |}.

(** Lines 79-92. *)
Definition getDiff (E : Env) (owner repo : string) (pull_number : Z) : M (option string) :=
  call (EvPullsGetDiff owner repo pull_number) (pulls_get_diff E owner repo pull_number).

(** Line 166: [c.ln ? c.ln : c.ln2], where [0] is falsy like [undefined]. *)
Definition truthyNumber (o : option N) : bool :=
  match o with
  | Some n => negb (n =? 0)%N
  | None => false
  end.

Definition resolvedLine (c : Change) : option N :=
  if truthyNumber (ln c) then ln c else ln2 c.

Definition changeLine (c : Change) : string :=
  showNumber (resolvedLine c) ++ " " ++ changeContent c.

Definition systemPrompt : string :=
  "You are a code analyzer and experienced software developer. Your task is to review pull requests. Instructions:" ++ NL ++
  "- Do not give positive comments or compliments." ++ NL ++
  "- Provide comments and suggestions ONLY if there is something to improve, otherwise return an empty array." ++ NL ++
  "- Write the comment in GitHub Markdown format." ++ NL ++
  "- Use the given description only for the overall context and only comment the code." ++ NL ++
  "- Check your comment to make sure it is correct." ++ NL ++
  "- IMPORTANT: Do not make assumptions about what the code is supposed to do, only suggest improvements in syntax, keeping in mind the best practices of Javascript. " ++ NL ++
  "- DO NOT suggest linting or formatting changes." ++ NL ++
  "- IMPORTANT: NEVER suggest adding comments to the code." ++ NL ++
  "- Point out any code smells in the block, but only after you understand exactly what the code does. If unsure, omit any comments about that line." ++ NL ++
  " ".

Definition formatPrompt : string :=
  "Provide the response in following JSON format:  [{" ++ DQ ++ "lineNumber" ++ DQ ++
  ":  <line_number>, " ++ DQ ++ "reviewComment" ++ DQ ++ ": " ++ DQ ++ "<review comment>" ++ DQ ++ "}]".

(** Lines 150-169: the template literal of the user prompt as a function of
    the five values interpolated into it. *)
Definition userTemplate (path prTitle prDescription hunkHeader : string)
           (lines : list string) : string :=
  "Review the following code diff in the file " ++ DQ ++ path ++ DQ ++
  " and take the pull request title and description into account when writing the response." ++ NL ++
  "Pull request title: " ++ prTitle ++ NL ++
  "  " ++ NL ++
  "Pull request description:" ++ NL ++
  "---" ++ NL ++
  prDescription ++ NL ++
  "---" ++ NL ++
  NL ++
  "Git diff to review:" ++ NL ++
  NL ++
  "```diff" ++ NL ++
  hunkHeader ++ NL ++
  join NL lines ++ NL ++
  "```" ++ NL.

Definition userPrompt (file : File) (chunk : Chunk) (prDetails : PRDetails) : string :=
  userTemplate (showString (to file)) (title prDetails) (description prDetails)
               (content chunk) (map changeLine (changes chunk)).

(** Lines 132-171. *)
Definition createPrompts (file : File) (chunk : Chunk) (prDetails : PRDetails)
  : string * string * string :=
  (systemPrompt, formatPrompt, userPrompt file chunk prDetails).

(** Lines 177-201. *)
Definition payloadOf (prompt : string * string * string) : Payload :=
  let '(p0, p1, p2) := prompt in
  {| max_tokens := 700;
     messages := [ {| role := "system"; chat_content := p0 |};
                   {| role := "system"; chat_content := p1 |};
                   {| role := "user"; chat_content := p2 |} ] |}.

(** Line 212: [response.data.choices[0].message?.content?.trim() || "[]"].
    Reading [message] of a missing first choice is a [TypeError]; an empty
    trimmed content is falsy, like a missing one. *)
Definition responseText (data : ChatResponse) : result string :=
  match choices data with
  | [] => Throw (TypeError "Cannot read properties of undefined (reading 'message')")
  | c :: _ =>
      let trimmed :=
        match message c with
        | None => None
        | Some m =>
            match message_content m with
            | None => None
            | Some s => Some (trim s)
            end
        end in
      Ok (match trimmed with
          | None => "[]"
          | Some s => if s =? "" then "[]" else s
          end)
  end.

Definition completionCall (E : Env) (prompt : string * string * string) : event :=
  EvAxiosPost apiUrl (OPENAI_API_KEY E) "2023-05-15" (payloadOf prompt).

(** Lines 173-219. The value returned from the [catch] is [null]. *)
Definition getAIResponse (E : Env) (prompt : string * string * string) : M json :=
  try_catch
    (response <- call (completionCall E prompt) (axios_post E apiUrl (payloadOf prompt)) ;;
     res <- lift (responseText response) ;;
     lift (JSON_parse E res))
    (fun error => emit (EvConsoleError error) ;;; ret JNull).

(** The own property [k] of a parsed object, the last binding winning;
    [k] is never a name that a prototype supplies. *)
Fixpoint lookupField (k : string) (fields : list (string * json)) : jsval :=
  match fields with
  | [] => None
  | (k', v) :: rest =>
      match lookupField k rest with
      | Some w => Some w
      | None => if k' =? k then Some v else None
      end
  end.

(** [value.k] for [k] one of [reviewComment], [lineNumber]. *)
Definition getProp (v : json) (k : string) : result jsval :=
  match v with
  | JNull => Throw (TypeError ("Cannot read properties of null (reading '" ++ k ++ "')"))
  | JObject fields => Ok (lookupField k fields)
  | _ => Ok None
  end.

(** [!s] for a string that may be missing, as in [!file.to] and [!diff]:
    [undefined], [null] and the empty string are falsy. *)
Definition falsyString (o : option string) : bool :=
  match o with
  | None => true
  | Some s => s =? ""
  end.

(** Lines 221-239. Only an array has [flatMap]. *)
Definition createComment (E : Env) (file : File) (chunk : Chunk) (aiResponses : json)
  : result (list Comment) :=
  match aiResponses with
  | JArray items =>
      flatMapR (fun aiResponse =>
        if falsyString (to file) then Ok []
        else
          b <-? getProp aiResponse "reviewComment" ;;
          l <-? getProp aiResponse "lineNumber" ;;
          n <-? Number E l ;;
          Ok [ {| body := b; path := orElse (to file) ""; line := n |} ]) items
  | _ => Throw (TypeError "aiResponses.flatMap is not a function")
  end.

Definition isDeleted (file : File) : bool :=
  match to file with
  | Some s => s =? "/dev/null"
  | None => false
  end.

(** Lines 103-110, the body of the loop over the chunks of [file]. *)
Definition reviewChunk (E : Env) (prDetails : PRDetails) (file : File)
           (comments : list Comment) (chunk : Chunk) : M (list Comment) :=
  let prompts := createPrompts file chunk prDetails in
  aiResponse <- getAIResponse E prompts ;;
  if truthy aiResponse then
    newComments <- lift (createComment E file chunk aiResponse) ;;
    ret (comments ++ newComments)%list
  else ret comments.

(** Lines 101-111, the body of the loop over the files. *)
Definition reviewFile (E : Env) (prDetails : PRDetails)
           (comments : list Comment) (file : File) : M (list Comment) :=
  if isDeleted file then ret comments
  else foldM (reviewChunk E prDetails file) (chunks file) comments.

(** Lines 94-114. *)
Definition analyzeCode (E : Env) (parsedDiff : list File) (prDetails : PRDetails)
  : M (list Comment) :=
  foldM (reviewFile E prDetails) parsedDiff [].

(** Lines 241-254. *)
Definition createReviewComment (E : Env) (owner repo : string) (pull_number : Z)
           (comments : list Comment) : M unit :=
  call (EvCreateReview owner repo pull_number comments "COMMENT")
       (createReview E owner repo pull_number comments "COMMENT").

(** [s ? ... : ...] for a string that may be missing. *)
Definition truthyString (o : option string) : bool := negb (falsyString o).

(** Lines 257-287: the pull-request details and the diff, or [None] where
    [main] returns at the unsupported event. *)
Definition retrieveDiff (E : Env) : M (option (PRDetails * option string)) :=
  prDetails <- getPRDetails E ;;
  eventData <- lift (eventPayload E) ;;
  match action eventData with
  | Some a =>
      if a =? "opened" then
        diff <- getDiff E (owner prDetails) (repo prDetails) (pull_number prDetails) ;;
        ret (Some (prDetails, diff))
      else if a =? "synchronize" then
        let newBaseSha := before eventData in
        let newHeadSha := after eventData in
        let basehead := showString newBaseSha ++ "..." ++ showString newHeadSha in
        diff_url <- call (EvCompareCommits (owner prDetails) (repo prDetails) basehead)
                         (compareCommitsWithBasehead E (owner prDetails) (repo prDetails) basehead) ;;
        diff <- (if truthyString diff_url
                 then call (EvRequest (orElse diff_url "")) (request E (orElse diff_url ""))
                 else ret None) ;;
        ret (Some (prDetails, diff))
      else
        emit (EvConsoleLog ["Unsupported event:"; showString (GITHUB_EVENT_NAME E)]) ;;;
        ret None
  | None =>
      emit (EvConsoleLog ["Unsupported event:"; showString (GITHUB_EVENT_NAME E)]) ;;;
      ret None
  end.

(** Lines 296-299. *)
Definition excludePatterns (E : Env) : list string :=
  map trim (split_comma (getInput E "exclude")).

(** Lines 301-305. *)
Definition filteredDiff (E : Env) (parsedDiff : list File) : result (list File) :=
  filterR (fun file =>
    b <-? someR (fun pattern => minimatch E (orElse (to file) "") pattern) (excludePatterns E) ;;
    Ok (negb b)) parsedDiff.

(** Lines 289-315. *)
Definition reviewDiff (E : Env) (prDetails : PRDetails) (diff : option string) : M unit :=
  if falsyString diff then
    emit (EvConsoleLog ["No diff found"]) ;;; ret tt
  else
    let parsedDiff := parseDiff E (orElse diff "") in
    files <- lift (filteredDiff E parsedDiff) ;;
    comments <- analyzeCode E files prDetails ;;
    if (0 <? List.length comments)%nat then
      createReviewComment E (owner prDetails) (repo prDetails) (pull_number prDetails) comments
    else ret tt.

(** Lines 256-316. *)
Definition main (E : Env) : M unit :=
  r <- retrieveDiff E ;;
  match r with
  | None => ret tt
  | Some (prDetails, diff) => reviewDiff E prDetails diff
  end.

Inductive outcome := Completed | Exited (code : Z).

(** Lines 318-321: [main().catch(...)]. *)
Definition run (E : Env) : list event * outcome :=
  match main E with
  | (t, Ok _) => (t, Completed)
  | (t, Throw error) => ((t ++ [EvConsoleError error; EvExit 1])%list, Exited 1)
  end.

(** *** Observations on a trace *)

Definition isCreateReview (e : event) : bool :=
  match e with EvCreateReview _ _ _ _ _ => true | _ => false end.

Definition reviewCalls (t : list event) : list event := filter isCreateReview t.

(** *** Statements of the specification, in its own words *)

(** The completion request for [prompt] is rejected. *)
Definition requestErrors (E : Env) (prompt : string * string * string) : Prop :=
  exists e, axios_post E apiUrl (payloadOf prompt) = Throw e.

(** The completion request for [prompt] is answered with a text that
    [JSON.parse] refuses. *)
Definition invalidJSON (E : Env) (prompt : string * string * string) : Prop :=
  exists data res e,
    axios_post E apiUrl (payloadOf prompt) = Ok data /\
    responseText data = Ok res /\
    JSON_parse E res = Throw e.

(** The completion request for [prompt] is answered with a text that parses
    to [v]. *)
Definition answersWith (E : Env) (prompt : string * string * string) (v : json) : Prop :=
  exists data res,
    axios_post E apiUrl (payloadOf prompt) = Ok data /\
    responseText data = Ok res /\
    JSON_parse E res = Ok v.

(** The text handed to [JSON.parse] as the specification words it: the
    trimmed content of the first choice, and the text of an empty array when
    the content is absent. *)
Definition specResponseText (c : Choice) : string :=
  match message c with
  | None => "[]"
  | Some m =>
      match message_content m with
      | None => "[]"
      | Some s => trim s
      end
  end.

(** The line number of a change as the specification words it: the number in
    the new version when the change has one, else the number in the old
    version. *)
Definition specLineNumber (c : Change) : N :=
  match c with
  | AddChange n _ => n
  | NormalChange _ n2 _ => n2
  | DeleteChange n _ => n
  end.

Definition specChangeLine (c : Change) : string :=
  string_of_N (specLineNumber c) ++ " " ++ changeContent c.

(** The run of [E] gets as far as analysing [files], the parsed diff after
    the exclude filter, for the pull request [prDetails]. *)
Definition reaches (E : Env) (prDetails : PRDetails) (files : list File) : Prop :=
  exists t0 diff,
    retrieveDiff E = (t0, Ok (Some (prDetails, diff))) /\
    falsyString diff = false /\
    filteredDiff E (parseDiff E (orElse diff "")) = Ok files.

(** The run of [E] analyses [chunk] of [file], a file that is not deleted. *)
Definition analyses (E : Env) (prDetails : PRDetails) (file : File) (chunk : Chunk) : Prop :=
  exists files,
    reaches E prDetails files /\
    In file files /\ isDeleted file = false /\ In chunk (chunks file).

(** The run of [E] ends its analysis with the aggregated list [comments]. *)
Definition aggregates (E : Env) (prDetails : PRDetails) (comments : list Comment) : Prop :=
  exists files ta,
    reaches E prDetails files /\
    analyzeCode E files prDetails = (ta, Ok comments).

(** The specification's reading of a completion that is valid JSON but not
    an array: the run ends abnormally. *)
Definition nonArrayAborts (E : Env) : Prop :=
  forall prDetails file chunk v,
    analyses E prDetails file chunk ->
    answersWith E (createPrompts file chunk prDetails) v ->
    isArray v = false ->
    snd (run E) = Exited 1.

(** *** Example worlds *)

Definition samplePayload (act : option string) : EventPayload :=
  {| repository_owner_login := "octo";
     repository_name := "demo";
     number := 7;
     action := act;
     before := Some "aaa";
     after := Some "bbb" |}.

Definition sampleChunk : Chunk :=
  {| content := "@@ -1,2 +1,2 @@";
     changes := [ NormalChange 1 1 " keep"; DeleteChange 2 "-old"; AddChange 2 "+new" ] |}.

Definition sampleFile : File := {| chunks := [sampleChunk]; to := Some "src/a.ts" |}.

Definition deletedFile : File := {| chunks := [sampleChunk]; to := Some "/dev/null" |}.

Definition pathlessFile : File := {| chunks := [sampleChunk]; to := None |}.

Definition sampleAnswer : string :=
  "[{" ++ DQ ++ "lineNumber" ++ DQ ++ ": 2, " ++ DQ ++ "reviewComment" ++ DQ ++ ": " ++
  DQ ++ "Use const." ++ DQ ++ "}]".

Definition samplePRDetails : PRDetails :=
  {| owner := "octo"; repo := "demo"; pull_number := 7; title := "Title"; description := "" |}.

(** A hunk whose deleted line carries the line number 0. *)
Definition zeroChunk : Chunk :=
  {| content := "@@ -0,1 +0,0 @@"; changes := [ DeleteChange 0 "-x" ] |}.

(** A completion whose first choice has the empty string as content. *)
Definition emptyChoice : Choice := {| message := Some {| message_content := Some "" |} |}.

Definition emptyContentResponse : ChatResponse := {| choices := [emptyChoice] |}.

(** [JSON.parse] on the texts that the examples use. *)
Definition parseTable (s : string) : result json :=
  if s =? "[]" then Ok (JArray [])
  else if s =? "null" then Ok JNull
  else if s =? "{}" then Ok (JObject [])
  else if s =? sampleAnswer then
    Ok (JArray [ JObject [ ("lineNumber", JNumber 2%float);
                           ("reviewComment", JString "Use const.") ] ])
  else Throw (SyntaxError "Unexpected token").

(** [Number] on the values that the examples use. *)
Definition numberTable (v : jsval) : result float :=
  match v with
  | Some (JNumber x) => Ok x
  | _ => Ok nan
  end.

(** A world with the pull request octo/demo#7, whose diff holds
    [sampleFile], [deletedFile] and [pathlessFile]; the event action is
    [act], the exclude input is [excl], and every completion request is
    answered by [answer]. Patterns without wildcards match by equality. *)
Definition sampleEnv (act : option string) (excl : string)
           (answer : result (option string)) : Env :=
  {| getInput := fun name =>
       if name =? "exclude" then excl
       else if name =? "OPENAI_API_KEY" then "key" else "token";
     GITHUB_EVENT_NAME := Some "pull_request";
     eventPayload := Ok (samplePayload act);
     pulls_get := fun _ _ _ => Ok {| pull_title := Some "Title"; pull_body := None |};
     pulls_get_diff := fun _ _ _ => Ok (Some "diff --git a/src/a.ts b/src/a.ts");
     compareCommitsWithBasehead := fun _ _ _ => Ok (Some "https://example.test/compare.diff");
     request := fun _ => Ok (Some "diff --git a/src/a.ts b/src/a.ts");
     createReview := fun _ _ _ _ _ => Ok tt;
     axios_post := fun _ _ =>
       content <-? answer ;;
       Ok {| choices := [ {| message := Some {| message_content := content |} |} ] |};
     parseDiff := fun _ => [sampleFile; deletedFile; pathlessFile];
     minimatch := fun p pattern => Ok (p =? pattern);
     JSON_parse := parseTable;
     Number := numberTable |}.

(** *** Code that the run never reaches *)

Definition BS : string := String (ascii_of_nat 92) EmptyString.
Definition BT : string := String (ascii_of_nat 96) EmptyString.

(** [s.replace(c, rep)] for a pattern of the one character [c] and a
    replacement without dollar signs: only the first occurrence is replaced. *)
Fixpoint replaceFirst (c : ascii) (rep : string) (s : string) : string :=
  match s with
  | EmptyString => EmptyString
  | String x r => if Ascii.eqb x c then rep ++ r else String x (replaceFirst c rep r)
  end.

(** Lines 53-56. *)
Definition escapeString (inputString : string) : string :=
  replaceFirst (ascii_of_nat 96) (BS ++ BT)
    (replaceFirst (ascii_of_nat 34) (BS ++ DQ) inputString).

Fixpoint contains (c : ascii) (s : string) : bool :=
  match s with
  | EmptyString => false
  | String x r => Ascii.eqb x c || contains c r
  end.

(** *** Further observations *)

Fixpoint countChar (c : ascii) (s : string) : nat :=
  match s with
  | EmptyString => 0
  | String x r => (if Ascii.eqb x c then 1 else 0) + countChar c r
  end.

Definition isCompletionCall (e : event) : bool :=
  match e with EvAxiosPost _ _ _ _ => true | _ => false end.

Definition completionCalls (t : list event) : list event := filter isCompletionCall t.

(** The completion requests of a whole analysis: one for every hunk of every
    file that is not deleted, in the order of the diff. *)
Definition expectedCalls (E : Env) (prDetails : PRDetails) (files : list File) : list event :=
  flat_map (fun file =>
    if isDeleted file then []
    else map (fun chunk => completionCall E (createPrompts file chunk prDetails))
             (chunks file)) files.

(** A computation of new comments, put behind the comments already there. *)
Definition extend (comments : list Comment) (m : M (list Comment)) : M (list Comment) :=
  match m with
  | (t, Ok new) => (t, Ok (comments ++ new)%list)
  | (t, Throw e) => (t, Throw e)
  end.

(** A comment of [files]: its path is the destination of one of the files,
    and that destination is neither empty nor [/dev/null]. *)
Definition commentOf (files : list File) (c : Comment) : Prop :=
  exists file,
    In file files /\ to file = Some (path c) /\
    path c <> "" /\ path c <> "/dev/null".

(** *** More example worlds *)

(** [JSON.parse] on the texts of these examples. *)
Definition parseTable2 (s : string) : result json :=
  if s =? "[null]" then Ok (JArray [JNull]) else parseTable s.

(** A world like [sampleEnv] for an opened pull request with the empty
    exclude input, in which the payload, the answers of the hosting API and
    the answer of the completion endpoint are given. *)
Definition world (payload : result EventPayload) (pull : result PullData)
           (diff : result (option string)) (answer : result ChatResponse)
           (review : result unit) : Env :=
  {| getInput := fun name => if name =? "OPENAI_API_KEY" then "key" else "";
     GITHUB_EVENT_NAME := Some "pull_request";
     eventPayload := payload;
     pulls_get := fun _ _ _ => pull;
     pulls_get_diff := fun _ _ _ => diff;
     compareCommitsWithBasehead := fun _ _ _ => Ok None;
     request := fun _ => Ok None;
     createReview := fun _ _ _ _ _ => review;
     axios_post := fun _ _ => answer;
     parseDiff := fun _ => [sampleFile; deletedFile; pathlessFile];
     minimatch := fun p pattern => Ok (p =? pattern);
     JSON_parse := parseTable2;
     Number := numberTable |}.

Definition samplePull : PullData := {| pull_title := Some "Title"; pull_body := None |}.

Definition sampleDiff : option string := Some "diff --git a/src/a.ts b/src/a.ts".

Definition answerOf (text : string) : ChatResponse :=
  {| choices := [ {| message := Some {| message_content := Some text |} |} ] |}.

(** *** Hunks as the diff parser numbers them *)

(** A line number of a file: at least 1, and below 2^53, so that the number
    held by the parser is the integer itself and prints as its decimal
    digits. *)
Definition isLineNumber (n : N) : Prop := (1 <= n < 2 ^ 53)%N.

(** A hunk whose changes carry line numbers of a file. [parse-diff] numbers
    added lines upwards from the hunk's new start, deleted lines from its
    old start and context lines from both, and a side of a well-formed hunk
    starts at 0 only when it holds no line. *)
Definition wellNumbered (chunk : Chunk) : Prop :=
  forall c, In c (changes chunk) ->
    match c with
    | AddChange n _ | DeleteChange n _ => isLineNumber n
    | NormalChange n1 n2 _ => isLineNumber n1 /\ isLineNumber n2
    end.

End Review.


(** * Properties *)

(** ** Strings *)

Lemma append_nil_r (s : string) : s ++ "" = s.
Proof. induction s as [|c s IH]; simpl; [reflexivity | now rewrite IH]. Qed.

Lemma append_assoc (a b c : string) : (a ++ b) ++ c = a ++ (b ++ c).
Proof. induction a as [|x a IH]; simpl; [reflexivity | now rewrite IH]. Qed.

Lemma concat_empty_cons (s : string) (l : list string) :
  String.concat "" (s :: l) = s ++ String.concat "" l.
Proof.
  destruct l as [|y l]; simpl; [now rewrite append_nil_r | reflexivity].
Qed.

Lemma newlines_app (n m : nat) : newlines n ++ newlines m = newlines (n + m).
Proof.
  induction n as [|n IH]; simpl; [reflexivity | now rewrite IH].
Qed.

(** ** The diff printer *)

Module DiffParseSpec.
Import DiffParse.

Lemma fold_printHunk (hs : list Hunk) (out : stdout) :
  fold_left printHunk hs out = out ++ String.concat "" (map hunkReport hs).
Proof.
  revert out; induction hs as [|h hs IH]; intros out.
  - simpl. now rewrite append_nil_r.
  - cbn [fold_left map]. rewrite IH, concat_empty_cons.
    unfold printHunk, console_log, hunkReport.
    now rewrite !append_assoc.
Qed.

Lemma printFile_report (out : stdout) (f : File) :
  printFile out f = out ++ fileReport f.
Proof.
  unfold printFile, console_log, fileReport.
  rewrite fold_printHunk.
  now rewrite !append_assoc.
Qed.

Lemma fold_printFile (files : list File) (out : stdout) :
  fold_left printFile files out = out ++ String.concat "" (map fileReport files).
Proof.
  revert out; induction files as [|f files IH]; intros out.
  - simpl. now rewrite append_nil_r.
  - cbn [fold_left map]. rewrite IH, concat_empty_cons, printFile_report.
    now rewrite append_assoc.
Qed.

(** C1, as stated, fails: the printer closes every hunk with its own blank
    line, so the inserted lines of two hunks are not one newline-joined
    block. For [twoHunks] it prints the header, [a], a blank line, [b] and
    three blank lines, which is not the header, [a], [b] and blank lines. *)
Lemma parseDiff_block_not_per_file :
  ~ specFileReport twoHunks (parseDiff [twoHunks]).
Proof.
  intros [blanks [_ H]].
  cbv in H.
  discriminate H.
Qed.

(** C1 (amended): the printer's output is, file after file, the header line,
    then for every hunk in order the newline-join of the contents of that
    hunk's insertions followed by a blank line, then two blank lines. *)
Theorem parseDiff_report (files : list File) :
  parseDiff files =
  String.concat ""
    (map (fun f =>
            header f ++ NL ++
            String.concat ""
              (map (fun h => join NL (map content (filter isInsert (changes h))) ++ NL ++ NL)
                   (hunks f)) ++
            NL ++ NL)
         files).
Proof.
  unfold parseDiff. rewrite fold_printFile. reflexivity.
Qed.

Example parseDiff_fooDiff :
  parseDiff fooDiff = "+++++++++++ h ++++++++++++" ++ NL ++ "foo" ++ NL ++ newlines 3.
Proof. reflexivity. Qed.

(** For a file of exactly one hunk the two readings agree. *)
Lemma single_hunk_report (f : File) (h : Hunk) :
  hunks f = [h] -> specFileReport f (fileReport f).
Proof.
  intros Hh. exists (newlines 3). split; [now exists 3%nat|].
  unfold fileReport, fileInsertions, hunkReport, block. rewrite Hh. simpl.
  rewrite ?app_nil_r, ?append_nil_r, ?append_assoc. reflexivity.
Qed.

Lemma block_no_insert (h : Hunk) :
  (forall c, In c (changes h) -> isInsert c = false) -> block h = "".
Proof.
  intros H. unfold block.
  replace (filter isInsert (changes h)) with (@nil Change); [reflexivity|].
  symmetry. induction (changes h) as [|c cs IH]; [reflexivity|].
  simpl. rewrite (H c (or_introl eq_refl)). apply IH.
  intros c' Hc'. apply H. now right.
Qed.

Lemma hunkReports_no_insert (hs : list Hunk) :
  (forall h c, In h hs -> In c (changes h) -> isInsert c = false) ->
  String.concat "" (map hunkReport hs) = newlines (2 * List.length hs).
Proof.
  induction hs as [|h hs IH]; intros H; [reflexivity|].
  cbn [map]. rewrite concat_empty_cons, IH.
  - unfold hunkReport. rewrite block_no_insert.
    + replace (2 * List.length (h :: hs))%nat with (2 + 2 * List.length hs)%nat
        by (simpl; lia).
      reflexivity.
    + intros c Hc. apply (H h c); [now left | exact Hc].
  - intros h' c Hh' Hc. apply (H h' c); [now right | exact Hc].
Qed.

(** C8: when no change of the diff is an insertion, the output is, for each
    file, its header line followed by blank lines only: two for every hunk
    and two that close the file. *)
Theorem parseDiff_no_insertions (files : list File) :
  noInsertions files ->
  parseDiff files =
  String.concat ""
    (map (fun f => header f ++ NL ++ newlines (2 * List.length (hunks f) + 2)) files).
Proof.
  intros H. unfold parseDiff. rewrite fold_printFile. cbn [append]. f_equal.
  apply map_ext_in. intros f Hf. unfold fileReport.
  rewrite hunkReports_no_insert.
  - do 2 f_equal. rewrite <- newlines_app. reflexivity.
  - intros h c Hh Hc. exact (H f h c Hf Hh Hc).
Qed.

Lemma parseDiff_no_insertions_witness :
  noInsertions onlyDeletion /\
  parseDiff onlyDeletion = "+++++++++++ g ++++++++++++" ++ NL ++ newlines 4.
Proof.
  assert (Hn : noInsertions onlyDeletion).
  { intros f h c Hf Hh Hc.
    destruct Hf as [<-|[]]. destruct Hh as [<-|[]].
    destruct Hc as [<-|[<-|[]]]; reflexivity. }
  split; [exact Hn|].
  rewrite (parseDiff_no_insertions onlyDeletion Hn). reflexivity.
Defined.

(** *** Further properties of the printer *)

Lemma concat_empty_app (l1 l2 : list string) :
  String.concat "" (l1 ++ l2)%list = String.concat "" l1 ++ String.concat "" l2.
Proof.
  induction l1 as [|x l1 IH]; [reflexivity|].
  cbn [app]. rewrite !concat_empty_cons, IH. now rewrite append_assoc.
Qed.

Lemma parseDiff_closed_form (files : list File) :
  parseDiff files = String.concat "" (map fileReport files).
Proof. unfold parseDiff. now rewrite fold_printFile. Qed.

(** X1: printing is compositional: the output for two diffs one after the
    other is the output for the first followed by the output for the
    second. *)
Theorem parseDiff_app (files1 files2 : list File) :
  parseDiff (files1 ++ files2) = parseDiff files1 ++ parseDiff files2.
Proof.
  rewrite !parseDiff_closed_form, map_app. apply concat_empty_app.
Qed.

Lemma filter_idem {A} (p : A -> bool) (l : list A) : filter p (filter p l) = filter p l.
Proof.
  induction l as [|x l IH]; [reflexivity|].
  cbn [filter]. destruct (p x) eqn:Hp; [|exact IH].
  cbn [filter]. now rewrite Hp, IH.
Qed.

(** X2: the printer is a projection on the insertions: deleting every
    deleted line and every context line from the diff leaves the output as
    it is, blank lines of hunks without insertions included. *)
Theorem parseDiff_insertsOnly (files : list File) :
  parseDiff (map insertsOnlyFile files) = parseDiff files.
Proof.
  rewrite !parseDiff_closed_form, map_map. f_equal.
  apply map_ext. intros f. unfold fileReport, insertsOnlyFile, header.
  cbn [newPath hunks]. rewrite map_map. do 3 f_equal.
  f_equal. apply map_ext. intros h. unfold hunkReport, block, insertsOnly.
  cbn [changes]. now rewrite filter_idem.
Qed.

(** X3: for a file of exactly one hunk the output is the header line, the
    newline-joined insertions of the file and four newline characters, so
    the insertion block is followed by three blank lines. *)
Theorem parseDiff_single_hunk (file : File) (hunk : Hunk) :
  hunks file = [hunk] ->
  parseDiff [file] =
  header file ++ NL ++ join NL (fileInsertions file) ++ newlines 4.
Proof.
  intros Hh. rewrite parseDiff_closed_form.
  cbn [map String.concat]. unfold fileReport, fileInsertions, hunkReport, block.
  rewrite Hh. cbn [map flat_map String.concat]. rewrite app_nil_r.
  cbn [append newlines]. rewrite !append_assoc, append_nil_r. reflexivity.
Qed.

Lemma parseDiff_single_hunk_witness :
  parseDiff fooDiff = "+++++++++++ h ++++++++++++" ++ NL ++ "foo" ++ newlines 4.
Proof.
  exact (parseDiff_single_hunk (List.hd twoHunks fooDiff) _ eq_refl).
Defined.

Example parseDiff_mixedDiff :
  parseDiff mixedDiff =
  "+++++++++++ m ++++++++++++" ++ NL ++ "a" ++ newlines 2 ++
  "b" ++ NL ++ "c" ++ newlines 4.
Proof. reflexivity. Qed.

End DiffParseSpec.

(** ** The review pipeline *)

Module ReviewSpec.
Import Review.

(** *** Laws of the effect monad *)

Lemma bind_ret_l {A B} (a : A) (k : A -> M B) : bind (ret a) k = k a.
Proof. unfold bind, ret. destruct (k a) as [t r]. reflexivity. Qed.

Lemma bind_ret_r {A} (m : M A) : bind m ret = m.
Proof.
  destruct m as [t [a|e]]; simpl; [|reflexivity].
  now rewrite app_nil_r.
Qed.

Lemma bind_assoc {A B C} (m : M A) (k : A -> M B) (h : B -> M C) :
  bind (bind m k) h = bind m (fun a => bind (k a) h).
Proof.
  destruct m as [t [a|e]]; simpl; [|reflexivity].
  destruct (k a) as [t1 [b|e1]]; simpl; [|reflexivity].
  destruct (h b) as [t2 r2]. now rewrite app_assoc.
Qed.

Lemma bind_throw {A B} (t : list event) (e : exn) (k : A -> M B) :
  bind (t, Throw e) k = (t, Throw e).
Proof. reflexivity. Qed.

Lemma bind_ok {A B} (t : list event) (a : A) (k : A -> M B) :
  bind (t, Ok a) k = ((t ++ fst (k a))%list, snd (k a)).
Proof. simpl. destruct (k a); reflexivity. Qed.

Lemma bind_ext {A B} (m : M A) (k k' : A -> M B) :
  (forall a, k a = k' a) -> bind m k = bind m k'.
Proof.
  intros H. destruct m as [t [a|e]]; simpl; [|reflexivity].
  now rewrite H.
Qed.

Lemma fst_bind {A B} (m : M A) (k : A -> M B) :
  fst (bind m k) =
  (fst m ++ match snd m with Ok a => fst (k a) | Throw _ => [] end)%list.
Proof.
  destruct m as [t [a|e]]; simpl.
  - now destruct (k a).
  - now rewrite app_nil_r.
Qed.

Lemma foldM_app {A S} (f : S -> A -> M S) (l1 l2 : list A) (s : S) :
  foldM f (l1 ++ l2)%list s = bind (foldM f l1 s) (foldM f l2).
Proof.
  revert s; induction l1 as [|x l1 IH]; intros s; cbn [foldM app].
  - now rewrite bind_ret_l.
  - rewrite bind_assoc. apply bind_ext. intros s'. apply IH.
Qed.

Lemma foldM_ext {A S} (f g : S -> A -> M S) (l : list A) (s : S) :
  (forall s x, f s x = g s x) -> foldM f l s = foldM g l s.
Proof.
  intros H. revert s; induction l as [|x l IH]; intros s; [reflexivity|].
  cbn [foldM]. rewrite H. apply bind_ext. exact IH.
Qed.

Lemma foldM_throws {A S} (f : S -> A -> M S) (l : list A) (x : A) :
  In x l ->
  (forall s, exists t e, f s x = (t, Throw e)) ->
  forall s, exists t e, foldM f l s = (t, Throw e).
Proof.
  intros Hin Hx. induction l as [|y l IH]; [contradiction|].
  intros s. cbn [foldM].
  destruct (f s y) as [t [s'|e]] eqn:Hy.
  - destruct Hin as [->|Hin].
    + destruct (Hx s) as (t' & e' & Hc). congruence.
    + destruct (IH Hin s') as (t' & e' & Hc).
      exists (t ++ t')%list, e'. unfold bind. now rewrite Hc.
  - exists t, e. reflexivity.
Qed.

(** A step that only emits [evs] can be dropped from a run: the result is
    the same and the events are the same up to [evs]. *)
Lemma bind_skip {S R} (P : M S) (K : S -> M R) (evs : list event) :
  exists t1 t2 r,
    bind P K = ((t1 ++ t2)%list, r) /\
    (bind P (fun s => bind (evs, Ok s) K) = ((t1 ++ t2)%list, r) \/
     bind P (fun s => bind (evs, Ok s) K) = ((t1 ++ evs ++ t2)%list, r)).
Proof.
  destruct P as [t [s|e]].
  - exists t, (fst (K s)), (snd (K s)).
    unfold bind. destruct (K s) as [t2 r]. cbn [fst snd].
    split; [reflexivity | right; reflexivity].
  - exists t, [], (Throw e). rewrite !bind_throw, app_nil_r. auto.
Qed.

(** *** Review calls in a trace *)

Lemma reviewCalls_app (t1 t2 : list event) :
  reviewCalls (t1 ++ t2) = (reviewCalls t1 ++ reviewCalls t2)%list.
Proof. apply filter_app. Qed.

(** The review calls of a sequence are those of its steps. *)
Create Rewrite HintDb trace.
#[local] Hint Rewrite @fst_bind reviewCalls_app : trace.

Ltac split_trace := autorewrite with trace; cbn [fst snd app].

Lemma foldM_quiet {A S} (f : S -> A -> M S) (l : list A) (s : S) :
  (forall s x, reviewCalls (fst (f s x)) = []) ->
  reviewCalls (fst (foldM f l s)) = [].
Proof.
  intros H. revert s; induction l as [|x l IH]; intros s; [reflexivity|].
  cbn [foldM]. split_trace. rewrite H.
  destruct (snd (f s x)); [apply IH | reflexivity].
Qed.

(** *** Callbacks that do not throw *)

Lemma someR_pure {A} (p : A -> result bool) (q : A -> bool) (l : list A) :
  (forall x, In x l -> p x = Ok (q x)) -> someR p l = Ok (existsb q l).
Proof.
  induction l as [|x l IH]; intros H; [reflexivity|].
  cbn [someR existsb]. rewrite (H x (or_introl eq_refl)). cbn [rbind].
  destruct (q x); [reflexivity|].
  apply IH. intros y Hy. apply H. now right.
Qed.

Lemma filterR_pure {A} (p : A -> result bool) (q : A -> bool) (l : list A) :
  (forall x, In x l -> p x = Ok (q x)) -> filterR p l = Ok (filter q l).
Proof.
  induction l as [|x l IH]; intros H; [reflexivity|].
  cbn [filterR filter]. rewrite (H x (or_introl eq_refl)). cbn [rbind].
  rewrite IH by (intros y Hy; apply H; now right).
  reflexivity.
Qed.

Lemma orElse_empty (o : option string) : (orElse o "" =? "") = falsyString o.
Proof. destruct o; reflexivity. Qed.

(** *** The user prompt *)

Lemma changeLine_spec (c : Change) :
  ln c <> Some 0%N -> changeLine c = specChangeLine c.
Proof.
  intros H. unfold changeLine, specChangeLine, resolvedLine.
  destruct c as [n s | n s | n1 n2 s]; cbn in *; try reflexivity;
    (destruct (N.eqb_spec n 0) as [->|_]; [now elim H | reflexivity]).
Qed.

Lemma wellNumbered_ln (chunk : Chunk) (c : Change) :
  wellNumbered chunk -> In c (changes chunk) -> ln c <> Some 0%N.
Proof.
  intros Hw Hc. specialize (Hw c Hc). unfold isLineNumber in Hw.
  destruct c as [n s | n s | n1 n2 s]; cbn; [| |discriminate];
    intros [= ->]; destruct Hw as [Hw _]; now apply Hw.
Qed.

(** C7: for every file, every hunk whose changes carry line numbers of a
    file, and all pull-request details, the user segment of the prompt is
    the text below: it names the file's destination path, gives the title
    and the description of the pull request, and in the diff block gives the
    hunk's header followed by every change, each prefixed by its line
    number, the new-version number where the change has one, else the
    old-version number. *)
Theorem createPrompts_user_segment (file : File) (chunk : Chunk) (prDetails : PRDetails) :
  wellNumbered chunk ->
  snd (createPrompts file chunk prDetails) =
  "Review the following code diff in the file " ++ DQ ++
  (match to file with Some p => p | None => "undefined" end) ++ DQ ++
  " and take the pull request title and description into account when writing the response." ++ NL ++
  "Pull request title: " ++ title prDetails ++ NL ++
  "  " ++ NL ++
  "Pull request description:" ++ NL ++
  "---" ++ NL ++
  description prDetails ++ NL ++
  "---" ++ NL ++
  NL ++
  "Git diff to review:" ++ NL ++
  NL ++
  "```diff" ++ NL ++
  content chunk ++ NL ++
  String.concat NL
    (map (fun c => string_of_N (specLineNumber c) ++ " " ++ changeContent c)
         (changes chunk)) ++ NL ++
  "```" ++ NL.
Proof.
  intros H. cbn [createPrompts snd]. unfold userPrompt, userTemplate, join, showString.
  rewrite (map_ext_in changeLine
             (fun c => string_of_N (specLineNumber c) ++ " " ++ changeContent c)).
  - reflexivity.
  - intros c Hc. apply changeLine_spec. exact (wellNumbered_ln chunk c H Hc).
Qed.

(** *** The pipeline in a fixed world *)

Section Pipeline.

Variable E : Env.

(** **** The completion call *)

Lemma getAIResponse_rejected (prompt : string * string * string) (e : exn) :
  axios_post E apiUrl (payloadOf prompt) = Throw e ->
  getAIResponse E prompt = ([completionCall E prompt; EvConsoleError e], Ok JNull).
Proof.
  intros H. unfold getAIResponse, call, bind, try_catch. rewrite H. reflexivity.
Qed.

Lemma getAIResponse_answered (prompt : string * string * string)
      (data : ChatResponse) :
  axios_post E apiUrl (payloadOf prompt) = Ok data ->
  getAIResponse E prompt =
  match rbind (responseText data) (JSON_parse E) with
  | Ok v => ([completionCall E prompt], Ok v)
  | Throw e => ([completionCall E prompt; EvConsoleError e], Ok JNull)
  end.
Proof.
  intros H. unfold getAIResponse, call, bind, try_catch, lift. rewrite H.
  destruct (responseText data) as [res|e]; simpl; [|reflexivity].
  destruct (JSON_parse E res) as [v|e]; reflexivity.
Qed.

Lemma getAIResponse_failed (prompt : string * string * string) :
  requestErrors E prompt \/ invalidJSON E prompt ->
  exists e, getAIResponse E prompt = ([completionCall E prompt; EvConsoleError e], Ok JNull).
Proof.
  intros [[e H] | (data & res & e & Hd & Hr & Hp)].
  - exists e. now apply getAIResponse_rejected.
  - exists e. rewrite (getAIResponse_answered _ _ Hd), Hr. simpl. now rewrite Hp.
Qed.

(** C6 (amended): for a completion response with a first choice, the text
    that is parsed is the trimmed content of that choice's message, or the
    text of an empty array when the message or its content is absent or the
    trimmed content is empty; the parsed value is the hunk's result, and a
    text that does not parse is logged and gives [null]. *)
Theorem getAIResponse_parses_first_choice (prompt : string * string * string)
        (data : ChatResponse) (c : Choice) (rest : list Choice) :
  axios_post E apiUrl (payloadOf prompt) = Ok data ->
  choices data = c :: rest ->
  let text :=
    match message c with
    | Some {| message_content := Some s |} => if trim s =? "" then "[]" else trim s
    | _ => "[]"
    end in
  getAIResponse E prompt =
  match JSON_parse E text with
  | Ok v => ([completionCall E prompt], Ok v)
  | Throw e => ([completionCall E prompt; EvConsoleError e], Ok JNull)
  end.
Proof.
  intros Hd Hc text.
  rewrite (getAIResponse_answered _ _ Hd).
  unfold responseText. rewrite Hc. cbn [rbind].
  replace (match
              match message c with
              | Some m => match message_content m with
                          | Some s => Some (trim s)
                          | None => None
                          end
              | None => None
              end
            with
            | Some s => if s =? "" then "[]" else s
            | None => "[]"
            end) with text; [reflexivity|].
  unfold text. destruct (message c) as [[[s|]]|]; reflexivity.
Qed.

Lemma getAIResponse_quiet (prompt : string * string * string) :
  reviewCalls (fst (getAIResponse E prompt)) = [].
Proof.
  destruct (axios_post E apiUrl (payloadOf prompt)) as [data|e] eqn:H.
  - rewrite (getAIResponse_answered _ _ H).
    now destruct (rbind (responseText data) (JSON_parse E)).
  - now rewrite (getAIResponse_rejected _ _ H).
Qed.

(** **** The loop over files and hunks *)

Lemma reviewChunk_to (prDetails : PRDetails) (f1 f2 : File)
      (comments : list Comment) (chunk : Chunk) :
  to f1 = to f2 ->
  reviewChunk E prDetails f1 comments chunk = reviewChunk E prDetails f2 comments chunk.
Proof.
  intros H.
  unfold reviewChunk, createPrompts, userPrompt, createComment.
  rewrite H. reflexivity.
Qed.

Lemma reviewChunk_quiet (prDetails : PRDetails) (file : File)
      (comments : list Comment) (chunk : Chunk) :
  reviewCalls (fst (reviewChunk E prDetails file comments chunk)) = [].
Proof.
  unfold reviewChunk. split_trace. rewrite getAIResponse_quiet.
  destruct (snd (getAIResponse E _)) as [v|e]; [|reflexivity].
  destruct (truthy v); [|reflexivity].
  now destruct (createComment E file chunk v).
Qed.

Lemma analyzeCode_quiet (files : list File) (prDetails : PRDetails) :
  reviewCalls (fst (analyzeCode E files prDetails)) = [].
Proof.
  apply foldM_quiet. intros s f. unfold reviewFile.
  destruct (isDeleted f); [reflexivity|].
  apply foldM_quiet. intros. apply reviewChunk_quiet.
Qed.

Lemma foldM_reviewFile_deleted (prDetails : PRDetails)
      (files : list File) (comments : list Comment) :
  foldM (reviewFile E prDetails) files comments =
  foldM (reviewFile E prDetails) (filter (fun f => negb (isDeleted f)) files) comments.
Proof.
  revert comments; induction files as [|f files IH]; intros comments; [reflexivity|].
  cbn [foldM filter]. destruct (isDeleted f) eqn:Hd; cbn [negb].
  - unfold reviewFile at 1. rewrite Hd, bind_ret_l. apply IH.
  - cbn [foldM]. apply bind_ext. intros s. apply IH.
Qed.

(** C4: a file whose destination is [/dev/null] takes no part in the
    analysis. Its turn in the loop performs no event (no prompt reaches the
    completion endpoint) and leaves the comments as they are, whatever its
    hunks hold; and the events and comments of [analyzeCode] are those of the
    diff with every such file removed. *)
Theorem analyzeCode_ignores_deleted (prDetails : PRDetails) (parsedDiff : list File) :
  (forall file comments,
      to file = Some "/dev/null" ->
      reviewFile E prDetails comments file = ([], Ok comments)) /\
  analyzeCode E parsedDiff prDetails =
  analyzeCode E (filter (fun f => negb (isDeleted f)) parsedDiff) prDetails.
Proof.
  split.
  - intros file comments Hto. unfold reviewFile, isDeleted. rewrite Hto. reflexivity.
  - unfold analyzeCode. apply foldM_reviewFile_deleted.
Qed.

(** C3: when the completion request of a hunk is rejected, or is answered
    with a text that is not valid JSON, the failure is caught and logged, the
    result for the hunk is [null] and the hunk adds no comment; the analysis
    of the whole diff ends as it does without that hunk, with the same events
    apart from the hunk's request and the logged error. *)
Theorem failed_hunk_isolated (prDetails : PRDetails)
        (dest : option string) (earlier later : list Chunk) (chunk : Chunk)
        (filesBefore filesAfter : list File) :
  let file := {| chunks := earlier ++ chunk :: later; to := dest |} in
  let fileWithout := {| chunks := earlier ++ later; to := dest |} in
  let prompts := createPrompts file chunk prDetails in
  requestErrors E prompts \/ invalidJSON E prompts ->
  exists error,
    let logged := [completionCall E prompts; EvConsoleError error] in
    getAIResponse E prompts = (logged, Ok JNull) /\
    (forall comments,
        reviewChunk E prDetails file comments chunk = (logged, Ok comments)) /\
    exists t1 t2 r,
      analyzeCode E (filesBefore ++ fileWithout :: filesAfter) prDetails
        = ((t1 ++ t2)%list, r) /\
      (analyzeCode E (filesBefore ++ file :: filesAfter) prDetails
         = ((t1 ++ t2)%list, r) \/
       analyzeCode E (filesBefore ++ file :: filesAfter) prDetails
         = ((t1 ++ logged ++ t2)%list, r)).
Proof.
  intros file fileWithout prompts Hfail.
  destruct (getAIResponse_failed prompts Hfail) as [error Hai].
  exists error. cbv zeta.
  assert (Hstep : forall comments,
             reviewChunk E prDetails file comments chunk
             = ([completionCall E prompts; EvConsoleError error], Ok comments)).
  { intros comments. unfold reviewChunk. fold prompts. rewrite Hai. reflexivity. }
  split; [exact Hai|].
  split; [exact Hstep|].
  unfold analyzeCode. rewrite !foldM_app. cbn [foldM].
  destruct (isDeleted file) eqn:Hdel.
  - (* the file is a deleted one: neither run looks at its hunks *)
    assert (Hsame : forall s, reviewFile E prDetails s file = reviewFile E prDetails s fileWithout).
    { intros s. unfold reviewFile. rewrite Hdel.
      replace (isDeleted fileWithout) with true by (symmetry; exact Hdel).
      reflexivity. }
    set (run := bind (foldM (reviewFile E prDetails) filesBefore [])
                     (fun s => bind (reviewFile E prDetails s fileWithout)
                                    (foldM (reviewFile E prDetails) filesAfter))).
    exists (fst run), [], (snd run). rewrite app_nil_r.
    split; [apply surjective_pairing|]. left.
    rewrite (bind_ext _ _ (fun s => bind (reviewFile E prDetails s fileWithout)
                                        (foldM (reviewFile E prDetails) filesAfter))).
    + apply surjective_pairing.
    + intros s. now rewrite Hsame.
  - set (RF := reviewFile E prDetails).
    set (RC := reviewChunk E prDetails file).
    set (P := bind (foldM RF filesBefore []) (fun s => foldM RC earlier s)).
    set (K := fun s1 => bind (foldM RC later s1) (foldM RF filesAfter)).
    destruct (bind_skip P K [completionCall E prompts; EvConsoleError error])
      as (t1 & t2 & r & Hwithout & Hwith).
    exists t1, t2, r.
    assert (Hrun : forall f : File,
               to f = dest -> isDeleted f = false ->
               forall s,
                 bind (RF s f) (fun s' => foldM RF filesAfter s')
                 = bind (foldM RC (chunks f) s) (fun s' => foldM RF filesAfter s')).
    { intros f Hto Hf s. unfold RF at 1, reviewFile. rewrite Hf.
      rewrite (foldM_ext _ RC (chunks f) s) by (intros; now apply reviewChunk_to).
      reflexivity. }
    split.
    + rewrite <- Hwithout. unfold P. rewrite bind_assoc.
      apply bind_ext. intros s. rewrite (Hrun fileWithout eq_refl Hdel).
      change (chunks fileWithout) with (earlier ++ later)%list.
      rewrite foldM_app, bind_assoc. reflexivity.
    + assert (Heq : bind (foldM RF filesBefore [])
                         (fun s => bind (RF s file) (fun s' => foldM RF filesAfter s'))
                    = bind P (fun s1 => bind ([completionCall E prompts; EvConsoleError error], Ok s1) K)).
      { unfold P. rewrite bind_assoc.
        apply bind_ext. intros s. rewrite (Hrun file eq_refl Hdel).
        change (chunks file) with (earlier ++ chunk :: later)%list.
        rewrite foldM_app, bind_assoc.
        apply bind_ext. intros s1. cbn [foldM]. unfold RC at 1.
        rewrite Hstep. rewrite !bind_assoc. reflexivity. }
      rewrite Heq. exact Hwith.
Qed.

(** **** Retrieval of the diff *)

Lemma getPRDetails_quiet : reviewCalls (fst (getPRDetails E)) = [].
Proof.
  unfold getPRDetails, lift, call, bind.
  destruct (eventPayload E) as [ev|e]; [|reflexivity].
  now destruct (pulls_get E _ _ _).
Qed.

Lemma retrieveDiff_quiet : reviewCalls (fst (retrieveDiff E)) = [].
Proof.
  unfold retrieveDiff. split_trace. rewrite getPRDetails_quiet.
  destruct (snd (getPRDetails E)) as [pr|e]; [|reflexivity].
  unfold lift, getDiff, call, bind, emit, ret.
  destruct (eventPayload E) as [ev|e]; [|reflexivity].
  destruct (action ev) as [a|]; [|reflexivity].
  destruct (a =? "opened").
  { now destruct (pulls_get_diff E _ _ _). }
  destruct (a =? "synchronize"); [|reflexivity].
  destruct (compareCommitsWithBasehead E _ _ _) as [url|e]; [|reflexivity].
  destruct (truthyString url); [|reflexivity].
  now destruct (request E _).
Qed.

(** C2: once the pull-request details are fetched, the action of the event
    decides how the diff is obtained. For [opened] it is the answer to the
    pull-request request in diff format. For [synchronize] the commits
    [before...after] are compared; with a diff URL in the answer the diff is
    the answer to a second request to that URL, without one the diff is
    absent and the run logs that no diff was found. For any other action the
    run logs the unsupported event and returns normally with no further
    event. *)
Theorem diff_retrieval_by_action (t0 : list event) (prDetails : PRDetails)
        (ev : EventPayload) :
  getPRDetails E = (t0, Ok prDetails) ->
  eventPayload E = Ok ev ->
  let o := owner prDetails in
  let r := repo prDetails in
  let n := pull_number prDetails in
  (action ev = Some "opened" ->
   main E = bind ((t0 ++ [EvPullsGetDiff o r n])%list, pulls_get_diff E o r n)
                 (reviewDiff E prDetails)) /\
  (action ev = Some "synchronize" ->
   let basehead := showString (before ev) ++ "..." ++ showString (after ev) in
   let compare := EvCompareCommits o r basehead in
   match compareCommitsWithBasehead E o r basehead with
   | Ok (Some url) =>
       if url =? "" then
         main E = ((t0 ++ [compare; EvConsoleLog ["No diff found"]])%list, Ok tt)
       else
         main E = bind ((t0 ++ [compare; EvRequest url])%list, request E url)
                       (reviewDiff E prDetails)
   | Ok None =>
       main E = ((t0 ++ [compare; EvConsoleLog ["No diff found"]])%list, Ok tt)
   | Throw e => main E = ((t0 ++ [compare])%list, Throw e)
   end) /\
  (action ev <> Some "opened" ->
   action ev <> Some "synchronize" ->
   main E =
   ((t0 ++ [EvConsoleLog ["Unsupported event:"; showString (GITHUB_EVENT_NAME E)]])%list,
    Ok tt)).
Proof.
  intros Hpr Hev o r n.
  unfold main, retrieveDiff. rewrite Hpr, Hev.
  change (lift (Ok ev)) with (ret ev).
  rewrite !bind_assoc, bind_ok, bind_ret_l.
  fold o r n.
  split; [|split].
  - intros Ha. rewrite Ha. cbn [String.eqb Ascii.eqb Bool.eqb].
    unfold getDiff, call.
    destruct (pulls_get_diff E o r n) as [diff|e]; cbn; [|reflexivity].
    destruct (reviewDiff E prDetails diff) as [t' r'].
    cbn. rewrite <- ?app_assoc; reflexivity.
  - intros Ha. rewrite Ha.
    cbn [String.eqb Ascii.eqb Bool.eqb]. unfold call.
    destruct (compareCommitsWithBasehead E o r _) as [[url|]|e]; cbn.
    + unfold truthyString, falsyString.
      destruct (url =? "") eqn:Hu; cbn.
      * apply String.eqb_eq in Hu. subst url. cbn. rewrite <- ?app_assoc; reflexivity.
      * destruct (request E url) as [diff|e]; cbn; [|rewrite <- ?app_assoc; reflexivity].
        destruct (reviewDiff E prDetails diff) as [t' r'].
        cbn. rewrite <- ?app_assoc; reflexivity.
    + rewrite <- ?app_assoc; reflexivity.
    + reflexivity.
  - intros Hno Hns.
    destruct (action ev) as [a|]; [|reflexivity].
    destruct (String.eqb_spec a "opened") as [->|_]; [now elim Hno|].
    destruct (String.eqb_spec a "synchronize") as [->|_]; [now elim Hns|].
    reflexivity.
Qed.

(** **** The exclude filter *)

(** C10: the exclude filter keeps a file exactly when none of the trimmed,
    comma-separated patterns of the exclude input matches its destination
    path, the empty string standing for a missing one. With an empty exclude
    input the only pattern is the empty string; as the empty pattern matches
    the empty path and no other, the files kept are those that have a
    destination path, and a file without one is dropped. *)
Theorem exclude_filter (parsedDiff : list File) :
  (forall matches,
      (forall p pattern, minimatch E p pattern = Ok (matches p pattern)) ->
      filteredDiff E parsedDiff =
      Ok (filter (fun file =>
                    negb (existsb (fun pattern => matches (orElse (to file) "") pattern)
                                  (map trim (split_comma (getInput E "exclude")))))
                 parsedDiff)) /\
  (getInput E "exclude" = "" ->
   (forall p, minimatch E p "" = Ok (p =? "")) ->
   excludePatterns E = [""] /\
   exists kept,
     filteredDiff E parsedDiff = Ok kept /\
     kept = filter (fun file => negb (falsyString (to file))) parsedDiff /\
     (forall file, to file = None -> ~ In file kept) /\
     (forall file p, In file parsedDiff -> to file = Some p -> p <> "" -> In file kept)).
Proof.
  split.
  - intros matches Hm. unfold filteredDiff, excludePatterns.
    apply filterR_pure. intros file _.
    rewrite (someR_pure _ (fun pattern => matches (orElse (to file) "") pattern))
      by (intros; apply Hm).
    reflexivity.
  - intros Hin Hm.
    assert (Hpat : excludePatterns E = [""])
      by (unfold excludePatterns; rewrite Hin; reflexivity).
    split; [exact Hpat|].
    exists (filter (fun file => negb (falsyString (to file))) parsedDiff).
    split; [|split; [reflexivity|split]].
    + unfold filteredDiff. rewrite Hpat.
      apply filterR_pure. intros file _.
      cbn [someR]. rewrite Hm. cbn [rbind].
      rewrite orElse_empty. now destruct (falsyString (to file)).
    + intros file Hto Hk. apply filter_In in Hk. destruct Hk as [_ Hk].
      rewrite Hto in Hk. discriminate Hk.
    + intros file p Hf Hto Hp. apply filter_In. split; [exact Hf|].
      rewrite Hto. cbn. destruct (String.eqb_spec p ""); [contradiction | reflexivity].
Qed.

(** **** The end of the run *)

(** The rest of [main] once the files to analyse are known (lines 307-315). *)
Lemma main_of_reaches (prDetails : PRDetails) (files : list File) :
  reaches E prDetails files ->
  exists t0,
    reviewCalls t0 = [] /\
    main E =
    bind (t0, Ok tt) (fun _ =>
      comments <- analyzeCode E files prDetails ;;
      if (0 <? List.length comments)%nat then
        createReviewComment E (owner prDetails) (repo prDetails) (pull_number prDetails) comments
      else ret tt).
Proof.
  intros (t0 & diff & Hr & Hd & Hf).
  exists t0. split.
  - pose proof retrieveDiff_quiet as Hq. now rewrite Hr in Hq.
  - unfold main. rewrite Hr. rewrite !bind_ok. cbv beta iota.
    unfold reviewDiff. rewrite Hd, Hf.
    change (lift (Ok files)) with (ret files). rewrite bind_ret_l.
    reflexivity.
Qed.

(** C5: a run that ends its analysis with a non-empty list of comments makes
    exactly one review call, which carries the whole list and the event type
    [COMMENT]; a run that ends it with the empty list, and a run that does
    not get to the end of the analysis, make none. *)
Theorem review_published_once :
  (forall prDetails comments,
      aggregates E prDetails comments ->
      reviewCalls (fst (main E)) =
      match comments with
      | [] => []
      | _ :: _ => [EvCreateReview (owner prDetails) (repo prDetails)
                                  (pull_number prDetails) comments "COMMENT"]
      end) /\
  ((forall prDetails comments, ~ aggregates E prDetails comments) ->
   reviewCalls (fst (main E)) = []).
Proof.
  split.
  - intros prDetails comments (files & ta & Hreach & Ha).
    destruct (main_of_reaches prDetails files Hreach) as (t0 & Hq & Hmain).
    pose proof (analyzeCode_quiet files prDetails) as Hqa. rewrite Ha in Hqa.
    cbn [fst] in Hqa.
    rewrite Hmain, Ha. rewrite !fst_bind. cbn [fst snd].
    rewrite !reviewCalls_app, Hq, Hqa.
    destruct comments as [|c cs]; reflexivity.
  - intros Hnone. unfold main.
    rewrite fst_bind, reviewCalls_app, retrieveDiff_quiet.
    destruct (retrieveDiff E) as [t0 [[[prDetails diff]|]|e]] eqn:Hr;
      cbn [snd]; try reflexivity.
    unfold reviewDiff.
    destruct (falsyString diff) eqn:Hd; [reflexivity|].
    destruct (filteredDiff E (parseDiff E (orElse diff ""))) as [files|e] eqn:Hf;
      [|reflexivity].
    change (lift (Ok files)) with (ret files). rewrite bind_ret_l.
    rewrite fst_bind, reviewCalls_app, analyzeCode_quiet.
    destruct (analyzeCode E files prDetails) as [ta [comments|e]] eqn:Ha;
      [|reflexivity].
    exfalso. apply (Hnone prDetails comments).
    exists files, ta. split; [|exact Ha].
    exists t0, diff. auto.
Qed.

(** C9 (amended): when the completion of an analysed hunk is valid JSON that
    is neither an array nor falsy (an object, [true], a non-zero number or a
    non-empty string), the catch around the request does not fire; the
    comment mapping throws a [TypeError], the run makes no review call, logs
    the error and exits with code 1. *)
Theorem truthy_non_array_aborts (prDetails : PRDetails) (file : File)
        (chunk : Chunk) (v : json) :
  analyses E prDetails file chunk ->
  answersWith E (createPrompts file chunk prDetails) v ->
  isArray v = false ->
  truthy v = true ->
  (forall comments,
      reviewChunk E prDetails file comments chunk
      = ([completionCall E (createPrompts file chunk prDetails)],
         Throw (TypeError "aiResponses.flatMap is not a function"))) /\
  exists t e,
    main E = (t, Throw e) /\
    reviewCalls t = [] /\
    run E = ((t ++ [EvConsoleError e; EvExit 1])%list, Exited 1).
Proof.
  intros (files & Hreach & Hfile & Hdel & Hchunk) (data & res & Hd & Hr & Hp) Harr Htruthy.
  assert (Hstep : forall comments,
             reviewChunk E prDetails file comments chunk
             = ([completionCall E (createPrompts file chunk prDetails)],
                Throw (TypeError "aiResponses.flatMap is not a function"))).
  { intros comments. unfold reviewChunk.
    rewrite (getAIResponse_answered _ _ Hd), Hr. cbn [rbind]. rewrite Hp.
    rewrite bind_ok. rewrite Htruthy.
    destruct v; try discriminate; reflexivity. }
  split; [exact Hstep|].
  assert (Hfile_throws : forall s, exists t e, reviewFile E prDetails s file = (t, Throw e)).
  { intros s. unfold reviewFile. rewrite Hdel.
    apply (foldM_throws _ _ chunk Hchunk). intros s'. rewrite Hstep. eauto. }
  destruct (foldM_throws _ _ file Hfile Hfile_throws []) as (ta & e & Ha).
  destruct (main_of_reaches prDetails files Hreach) as (t0 & Hq & Hmain).
  fold (analyzeCode E files prDetails) in Ha.
  assert (Hm : main E = ((t0 ++ ta)%list, Throw e)).
  { rewrite Hmain, Ha. reflexivity. }
  exists (t0 ++ ta)%list, e. repeat split.
  - exact Hm.
  - rewrite reviewCalls_app, Hq. pose proof (analyzeCode_quiet files prDetails) as Hqa.
    now rewrite Ha in Hqa.
  - unfold run. now rewrite Hm.
Qed.

End Pipeline.

(** *** The example worlds *)

(** With the empty exclude input, a run for an opened pull request gets to
    the analysis of [sampleFile] and [deletedFile], whatever the completion
    endpoint answers. *)
Lemma sampleEnv_reaches (answer : result (option string)) :
  reaches (sampleEnv (Some "opened") "" answer) samplePRDetails [sampleFile; deletedFile].
Proof.
  exists [EvPullsGet "octo" "demo" 7; EvPullsGetDiff "octo" "demo" 7].
  exists (Some "diff --git a/src/a.ts b/src/a.ts").
  repeat split; reflexivity.
Qed.

Lemma sampleEnv_analyses (answer : result (option string)) :
  analyses (sampleEnv (Some "opened") "" answer) samplePRDetails sampleFile sampleChunk.
Proof.
  exists [sampleFile; deletedFile].
  split; [apply sampleEnv_reaches|].
  repeat split; simpl; auto.
Qed.

(** Three runs for an opened pull request: the completion is an array of one
    comment; the completion is [null]; the completion request is rejected. *)
Example run_with_comment :
  let E := sampleEnv (Some "opened") "" (Ok (Some sampleAnswer)) in
  run E =
  ([ EvPullsGet "octo" "demo" 7;
     EvPullsGetDiff "octo" "demo" 7;
     completionCall E (createPrompts sampleFile sampleChunk samplePRDetails);
     EvCreateReview "octo" "demo" 7
       [ {| body := Some (JString "Use const."); path := "src/a.ts"; line := 2%float |} ]
       "COMMENT" ],
   Completed).
Proof. reflexivity. Qed.

Example run_with_null :
  let E := sampleEnv (Some "opened") "" (Ok (Some "null")) in
  run E =
  ([ EvPullsGet "octo" "demo" 7;
     EvPullsGetDiff "octo" "demo" 7;
     completionCall E (createPrompts sampleFile sampleChunk samplePRDetails) ],
   Completed).
Proof. reflexivity. Qed.

Example run_with_rejected_request :
  let E := sampleEnv (Some "opened") "" (Throw (RequestError "timeout")) in
  run E =
  ([ EvPullsGet "octo" "demo" 7;
     EvPullsGetDiff "octo" "demo" 7;
     completionCall E (createPrompts sampleFile sampleChunk samplePRDetails);
     EvConsoleError (RequestError "timeout") ],
   Completed).
Proof. reflexivity. Qed.

Lemma diff_retrieval_by_action_witness :
  main (sampleEnv (Some "closed") "" (Ok None)) =
    ([EvPullsGet "octo" "demo" 7;
      EvConsoleLog ["Unsupported event:"; "pull_request"]], Ok tt) /\
  main (sampleEnv (Some "opened") "" (Ok None)) =
    bind ([EvPullsGet "octo" "demo" 7; EvPullsGetDiff "octo" "demo" 7],
          Ok (Some "diff --git a/src/a.ts b/src/a.ts"))
         (reviewDiff (sampleEnv (Some "opened") "" (Ok None)) samplePRDetails) /\
  main (sampleEnv (Some "synchronize") "" (Ok None)) =
    bind ([EvPullsGet "octo" "demo" 7; EvCompareCommits "octo" "demo" "aaa...bbb";
           EvRequest "https://example.test/compare.diff"],
          Ok (Some "diff --git a/src/a.ts b/src/a.ts"))
         (reviewDiff (sampleEnv (Some "synchronize") "" (Ok None)) samplePRDetails).
Proof.
  split; [|split].
  - refine (proj2 (proj2 (diff_retrieval_by_action
                            (sampleEnv (Some "closed") "" (Ok None))
                            [EvPullsGet "octo" "demo" 7] samplePRDetails
                            (samplePayload (Some "closed")) eq_refl eq_refl)) _ _);
      discriminate.
  - exact (proj1 (diff_retrieval_by_action
                    (sampleEnv (Some "opened") "" (Ok None))
                    [EvPullsGet "octo" "demo" 7] samplePRDetails
                    (samplePayload (Some "opened")) eq_refl eq_refl) eq_refl).
  - exact (proj1 (proj2 (diff_retrieval_by_action
                           (sampleEnv (Some "synchronize") "" (Ok None))
                           [EvPullsGet "octo" "demo" 7] samplePRDetails
                           (samplePayload (Some "synchronize")) eq_refl eq_refl)) eq_refl).
Defined.

Lemma failed_hunk_isolated_witness :
  let E := sampleEnv (Some "opened") "" (Throw (RequestError "timeout")) in
  let prompts := createPrompts sampleFile sampleChunk samplePRDetails in
  requestErrors E prompts /\
  exists error, forall comments,
    reviewChunk E samplePRDetails sampleFile comments sampleChunk
    = ([completionCall E prompts; EvConsoleError error], Ok comments).
Proof.
  intros E prompts.
  assert (H : requestErrors E prompts) by (exists (RequestError "timeout"); reflexivity).
  split; [exact H|].
  destruct (failed_hunk_isolated E samplePRDetails (Some "src/a.ts") [] [] sampleChunk [] []
              (or_introl H)) as [error [_ [Hstep _]]].
  exists error. exact Hstep.
Defined.

Lemma analyzeCode_ignores_deleted_witness :
  let E := sampleEnv (Some "opened") "" (Ok (Some sampleAnswer)) in
  reviewFile E samplePRDetails [] deletedFile = ([], Ok []) /\
  analyzeCode E [deletedFile; sampleFile] samplePRDetails =
  analyzeCode E [sampleFile] samplePRDetails.
Proof.
  intros E.
  destruct (analyzeCode_ignores_deleted E samplePRDetails [deletedFile; sampleFile])
    as [Hfile Hrun].
  split; [exact (Hfile deletedFile [] eq_refl) | exact Hrun].
Defined.

Lemma review_published_once_witness :
  reviewCalls (fst (main (sampleEnv (Some "opened") "" (Ok (Some sampleAnswer))))) =
  [EvCreateReview "octo" "demo" 7
     [ {| body := Some (JString "Use const."); path := "src/a.ts"; line := 2%float |} ]
     "COMMENT"].
Proof.
  assert (Ha : aggregates (sampleEnv (Some "opened") "" (Ok (Some sampleAnswer)))
                 samplePRDetails
                 [ {| body := Some (JString "Use const."); path := "src/a.ts";
                      line := 2%float |} ]).
  { exists [sampleFile; deletedFile]. eexists.
    split; [apply sampleEnv_reaches | reflexivity]. }
  exact (proj1 (review_published_once _) _ _ Ha).
Defined.

(** C6, as stated, fails: a first choice whose content is the empty string
    is not absent, and its trimmed content is the empty string, yet the text
    that is parsed is that of an empty array. *)
Lemma empty_content_is_replaced :
  responseText emptyContentResponse = Ok "[]" /\
  specResponseText emptyChoice = "" /\
  responseText emptyContentResponse <> Ok (specResponseText emptyChoice).
Proof.
  repeat split; discriminate.
Qed.

Lemma getAIResponse_parses_first_choice_witness :
  let E := sampleEnv (Some "opened") "" (Ok (Some "  null ")) in
  let prompt := createPrompts sampleFile sampleChunk samplePRDetails in
  getAIResponse E prompt = ([completionCall E prompt], Ok JNull).
Proof.
  intros E prompt.
  exact (getAIResponse_parses_first_choice E prompt
           {| choices := [ {| message := Some {| message_content := Some "  null " |} |} ] |}
           _ [] eq_refl eq_refl).
Defined.

(** Outside the hunks of a file: the line number of a change is resolved by
    truthiness, so a deleted line numbered 0 would be prefixed by
    [undefined]. No well-formed hunk holds such a line. *)
Lemma zero_line_number_is_undefined :
  changeLine (DeleteChange 0 "-x") = "undefined -x" /\
  specChangeLine (DeleteChange 0 "-x") = "0 -x" /\
  snd (createPrompts sampleFile zeroChunk samplePRDetails) <>
  userTemplate "src/a.ts" "Title" "" (content zeroChunk)
               (map specChangeLine (changes zeroChunk)).
Proof.
  split; [reflexivity|]. split; [reflexivity|].
  intros H. vm_compute in H. discriminate H.
Qed.

Lemma createPrompts_user_segment_witness :
  wellNumbered sampleChunk /\
  snd (createPrompts sampleFile sampleChunk samplePRDetails) =
  "Review the following code diff in the file " ++ DQ ++ "src/a.ts" ++ DQ ++
  " and take the pull request title and description into account when writing the response." ++ NL ++
  "Pull request title: Title" ++ NL ++
  "  " ++ NL ++
  "Pull request description:" ++ NL ++
  "---" ++ NL ++
  NL ++
  "---" ++ NL ++
  NL ++
  "Git diff to review:" ++ NL ++
  NL ++
  "```diff" ++ NL ++
  "@@ -1,2 +1,2 @@" ++ NL ++
  "1  keep" ++ NL ++
  "2 -old" ++ NL ++
  "2 +new" ++ NL ++
  "```" ++ NL.
Proof.
  assert (H : wellNumbered sampleChunk).
  { intros c [<-|[<-|[<-|[]]]]; unfold isLineNumber;
      repeat split; try reflexivity; intros Hgt; discriminate Hgt. }
  split; [exact H|].
  exact (createPrompts_user_segment sampleFile sampleChunk samplePRDetails H).
Defined.

(** C9, as stated, fails: [null] is valid JSON and not an array, but it is
    falsy, so the comment mapping is never entered and the run completes. *)
Lemma null_completion_completes :
  ~ nonArrayAborts (sampleEnv (Some "opened") "" (Ok (Some "null"))).
Proof.
  intros H.
  specialize (H samplePRDetails sampleFile sampleChunk JNull).
  assert (Hrun : snd (run (sampleEnv (Some "opened") "" (Ok (Some "null")))) = Exited 1).
  { apply H.
    - apply sampleEnv_analyses.
    - eexists. eexists. repeat split; reflexivity.
    - reflexivity. }
  vm_compute in Hrun. discriminate Hrun.
Qed.

Lemma truthy_non_array_aborts_witness :
  snd (run (sampleEnv (Some "opened") "" (Ok (Some "{}")))) = Exited 1.
Proof.
  pose proof (sampleEnv_analyses (Ok (Some "{}"))) as Ha.
  assert (Hv : answersWith (sampleEnv (Some "opened") "" (Ok (Some "{}")))
                 (createPrompts sampleFile sampleChunk samplePRDetails) (JObject [])).
  { eexists. eexists. repeat split; reflexivity. }
  destruct (truthy_non_array_aborts _ _ _ _ _ Ha Hv eq_refl eq_refl)
    as [_ (t & e & _ & _ & Hrun)].
  rewrite Hrun. reflexivity.
Defined.

Lemma exclude_filter_witness :
  let E := sampleEnv (Some "opened") "" (Ok None) in
  excludePatterns E = [""] /\
  filteredDiff E [sampleFile; deletedFile; pathlessFile] = Ok [sampleFile; deletedFile].
Proof.
  intros E.
  destruct (proj2 (exclude_filter E [sampleFile; deletedFile; pathlessFile])
                  eq_refl (fun p => eq_refl))
    as [Hpat (kept & Hf & -> & _)].
  split; [exact Hpat | exact Hf].
Defined.

(** *** Escaping (lines 53-56) *)

Lemma contains_append (c : ascii) (a b : string) :
  contains c (a ++ b) = contains c a || contains c b.
Proof.
  induction a as [|x a IH]; [reflexivity|].
  cbn [append contains]. now rewrite IH, orb_assoc.
Qed.

Lemma contains_replaceFirst (d c : ascii) (rep : string) (s : string) :
  Ascii.eqb d c = false ->
  contains d rep = false ->
  contains d (replaceFirst c rep s) = contains d s.
Proof.
  intros Hdc Hrep. induction s as [|x s IH]; [reflexivity|].
  cbn [replaceFirst]. destruct (Ascii.eqb x c) eqn:Hx.
  - rewrite contains_append, Hrep. cbn [contains orb].
    apply Ascii.eqb_eq in Hx. subst x.
    rewrite Ascii.eqb_sym, Hdc. reflexivity.
  - cbn [contains]. now rewrite IH.
Qed.

Lemma length_append (a b : string) :
  String.length (a ++ b) = (String.length a + String.length b)%nat.
Proof. induction a as [|x a IH]; [reflexivity|]. cbn. now rewrite IH. Qed.

Lemma length_replaceFirst (c : ascii) (rep : string) (s : string) :
  String.length rep = 2%nat ->
  String.length (replaceFirst c rep s) =
  (String.length s + if contains c s then 1 else 0)%nat.
Proof.
  intros Hrep. induction s as [|x s IH]; [reflexivity|].
  cbn [replaceFirst contains]. destruct (Ascii.eqb x c); cbn [orb].
  - rewrite length_append, Hrep. cbn. lia.
  - cbn [String.length]. rewrite IH. lia.
Qed.

(** Escaping lengthens a string by one character if it holds a double quote
    and by one more if it holds a backtick, however many of them it holds. *)
Lemma escapeString_length (inputString : string) :
  String.length (escapeString inputString) =
  (String.length inputString
   + (if contains (ascii_of_nat 34) inputString then 1 else 0)
   + (if contains (ascii_of_nat 96) inputString then 1 else 0))%nat.
Proof.
  unfold escapeString.
  rewrite length_replaceFirst by reflexivity.
  rewrite length_replaceFirst by reflexivity.
  rewrite contains_replaceFirst by reflexivity.
  reflexivity.
Qed.

Lemma replaceFirst_absent (c : ascii) (rep : string) (s : string) :
  contains c s = false -> replaceFirst c rep s = s.
Proof.
  induction s as [|x s IH]; [reflexivity|].
  cbn [contains replaceFirst]. destruct (Ascii.eqb x c); [discriminate|].
  cbn [orb]. intros H. now rewrite IH.
Qed.

Lemma replaceFirst_first (c : ascii) (rep a b : string) :
  contains c a = false ->
  replaceFirst c rep (a ++ String c b) = a ++ rep ++ b.
Proof.
  induction a as [|x a IH]; cbn [append contains replaceFirst].
  - intros _. now rewrite Ascii.eqb_refl.
  - destruct (Ascii.eqb x c); [discriminate|]. cbn [orb]. intros H. now rewrite IH.
Qed.

(** X4: escaping puts a backslash before the first double quote and before
    the first backtick of its input and changes nothing else: every later
    double quote and backtick stays as it is. With [a] free of both
    characters, the four shapes below, and the strings free of both, are all
    the inputs there are. *)
Theorem escapeString_first_only (a b c : string) :
  contains (ascii_of_nat 34) a = false ->
  contains (ascii_of_nat 96) a = false ->
  (contains (ascii_of_nat 96) b = false ->
   escapeString (a ++ DQ ++ b) = a ++ BS ++ DQ ++ b) /\
  (contains (ascii_of_nat 34) b = false ->
   escapeString (a ++ BT ++ b) = a ++ BS ++ BT ++ b) /\
  (contains (ascii_of_nat 96) b = false ->
   escapeString (a ++ DQ ++ b ++ BT ++ c) = a ++ BS ++ DQ ++ b ++ BS ++ BT ++ c) /\
  (contains (ascii_of_nat 34) b = false ->
   escapeString (a ++ BT ++ b ++ DQ ++ c) = a ++ BS ++ BT ++ b ++ BS ++ DQ ++ c).
Proof.
  intros Hqa Hta. unfold escapeString, DQ, BT, BS. cbn [append].
  split; [|split; [|split]]; intros Hb.
  - rewrite (replaceFirst_first (ascii_of_nat 34) _ a b Hqa). cbn [append].
    apply replaceFirst_absent.
    rewrite contains_append, Hta. cbn [contains orb]. exact Hb.
  - rewrite (replaceFirst_absent (ascii_of_nat 34)).
    + now rewrite (replaceFirst_first (ascii_of_nat 96) _ a b Hta).
    + rewrite contains_append, Hqa. cbn [contains orb]. exact Hb.
  - rewrite (replaceFirst_first (ascii_of_nat 34) _ a _ Hqa). cbn [append].
    replace (a ++ String (ascii_of_nat 92) (String (ascii_of_nat 34)
               (b ++ String (ascii_of_nat 96) c)))
      with ((a ++ String (ascii_of_nat 92) (String (ascii_of_nat 34) b))
              ++ String (ascii_of_nat 96) c)
      by (rewrite append_assoc; reflexivity).
    rewrite (replaceFirst_first (ascii_of_nat 96)).
    + rewrite append_assoc. reflexivity.
    + rewrite contains_append, Hta. cbn [contains orb]. exact Hb.
  - replace (a ++ String (ascii_of_nat 96) (b ++ String (ascii_of_nat 34) c))
      with ((a ++ String (ascii_of_nat 96) b) ++ String (ascii_of_nat 34) c)
      by (rewrite append_assoc; reflexivity).
    rewrite (replaceFirst_first (ascii_of_nat 34)).
    + rewrite append_assoc. cbn [append].
      now rewrite (replaceFirst_first (ascii_of_nat 96) _ a _ Hta).
    + rewrite contains_append, Hqa. cbn [contains orb]. exact Hb.
Qed.

(** X5: escaping leaves a string as it is exactly when the string holds
    neither a double quote nor a backtick. *)
Theorem escapeString_fixed_iff (inputString : string) :
  escapeString inputString = inputString <->
  contains (ascii_of_nat 34) inputString = false /\
  contains (ascii_of_nat 96) inputString = false.
Proof.
  split.
  - intros H. assert (L := f_equal String.length H). unfold escapeString in L.
    rewrite length_replaceFirst in L by reflexivity.
    rewrite length_replaceFirst in L by reflexivity.
    rewrite contains_replaceFirst in L by reflexivity.
    destruct (contains (ascii_of_nat 34) inputString),
             (contains (ascii_of_nat 96) inputString); auto; lia.
  - intros [Hq Hb]. unfold escapeString.
    rewrite (replaceFirst_absent _ _ _ Hq). now apply replaceFirst_absent.
Qed.

(** *** The exclude patterns (lines 296-299) *)

Lemma length_split_comma (s : string) :
  List.length (split_comma s) = S (countChar ","%char s).
Proof.
  induction s as [|x s IH]; [reflexivity|].
  cbn [split_comma countChar]. destruct (Ascii.eqb x ","%char).
  - cbn [List.length]. now rewrite IH.
  - destruct (split_comma s) as [|h t]; [discriminate IH|].
    cbn [List.length] in *. lia.
Qed.

Lemma trimEnd_idem (s : string) : trimEnd (trimEnd s) = trimEnd s.
Proof.
  induction s as [|c s IH]; [reflexivity|].
  cbn [trimEnd]. destruct (trimEnd s) as [|c' r'] eqn:Hr.
  - destruct (isSpace c) eqn:Hc; [reflexivity|].
    cbn [trimEnd]. now rewrite Hc.
  - cbn [trimEnd]. cbn [trimEnd] in IH. rewrite IH. reflexivity.
Qed.

Lemma trimStart_head (s : string) (c : ascii) (r : string) :
  trimStart s = String c r -> isSpace c = false.
Proof.
  induction s as [|x s IH]; [discriminate|].
  cbn [trimStart]. destruct (isSpace x) eqn:Hx; [exact IH|].
  intros H. injection H as <- _. exact Hx.
Qed.

Lemma trimEnd_head (c : ascii) (r : string) :
  isSpace c = false -> exists r', trimEnd (String c r) = String c r'.
Proof.
  intros Hc. cbn [trimEnd]. destruct (trimEnd r) as [|c' r'].
  - rewrite Hc. now exists EmptyString.
  - now exists (String c' r').
Qed.

Lemma trim_idem (s : string) : trim (trim s) = trim s.
Proof.
  unfold trim. destruct (trimStart s) as [|c r] eqn:Hs; [reflexivity|].
  pose proof (trimStart_head _ _ _ Hs) as Hc.
  destruct (trimEnd_head c r Hc) as [r' Hr]. rewrite Hr.
  cbn [trimStart]. rewrite Hc, <- Hr. apply trimEnd_idem.
Qed.

(** *** The completion call and the comments of a hunk *)

Section Coverage.

Variable E : Env.

(** X6: the exclude input always gives at least one pattern, one more than
    it has commas, and every pattern is free of surrounding whitespace. *)
Theorem excludePatterns_shape :
  List.length (excludePatterns E) = S (countChar ","%char (getInput E "exclude")) /\
  Forall (fun pattern => trim pattern = pattern) (excludePatterns E).
Proof.
  unfold excludePatterns. split.
  - now rewrite length_map, length_split_comma.
  - apply Forall_forall. intros p Hp. apply in_map_iff in Hp.
    destruct Hp as (q & <- & _). apply trim_idem.
Qed.

(** X7: the text handed to [JSON.parse] is never the empty string. *)
Theorem responseText_never_empty (data : ChatResponse) :
  responseText data <> Ok "".
Proof.
  unfold responseText. destruct (choices data) as [|c rest]; [discriminate|].
  destruct (message c) as [[[s|]]|]; cbn [message_content]; try discriminate.
  destruct (trim s =? "") eqn:Ht; [discriminate|].
  intros H. injection H as H. rewrite H in Ht. discriminate Ht.
Qed.

(** X8: [getAIResponse] never throws, whatever the endpoint and the parser
    do: it performs the one completion request and either returns the parsed
    value, or logs one error and returns [null]. *)
Theorem getAIResponse_never_throws (prompt : string * string * string) :
  (exists v, getAIResponse E prompt = ([completionCall E prompt], Ok v)) \/
  (exists e, getAIResponse E prompt =
             ([completionCall E prompt; EvConsoleError e], Ok JNull)).
Proof.
  destruct (axios_post E apiUrl (payloadOf prompt)) as [data|e] eqn:H.
  - rewrite (getAIResponse_answered E _ _ H).
    destruct (rbind (responseText data) (JSON_parse E)) as [v|e]; eauto.
  - right. exists e. now apply getAIResponse_rejected.
Qed.

(** X9: a completion response without any choice counts as a failure of the
    hunk: the [TypeError] of reading the first choice is caught and logged
    and the comments stay as they are. *)
Theorem no_choice_is_a_failure (prDetails : PRDetails) (file : File) (chunk : Chunk)
        (data : ChatResponse) :
  axios_post E apiUrl (payloadOf (createPrompts file chunk prDetails)) = Ok data ->
  choices data = [] ->
  forall comments,
    reviewChunk E prDetails file comments chunk =
    ([completionCall E (createPrompts file chunk prDetails);
      EvConsoleError (TypeError "Cannot read properties of undefined (reading 'message')")],
     Ok comments).
Proof.
  intros Hd Hc comments. unfold reviewChunk.
  rewrite (getAIResponse_answered E _ _ Hd). unfold responseText. rewrite Hc.
  reflexivity.
Qed.

Lemma flatMapR_nil {A B} (f : A -> result (list B)) (l : list A) :
  (forall x, f x = Ok []) -> flatMapR f l = Ok [].
Proof.
  intros H. induction l as [|x l IH]; [reflexivity|].
  cbn [flatMapR]. now rewrite H, IH.
Qed.

Lemma createComment_pathless (file : File) (chunk : Chunk) (v : json) (out : list Comment) :
  falsyString (to file) = true ->
  createComment E file chunk v = Ok out -> out = [].
Proof.
  intros Hp. destruct v; try discriminate.
  cbn [createComment]. rewrite flatMapR_nil by (intros; now rewrite Hp).
  now intros [= <-].
Qed.

(** X10: for a file without a destination path the comment mapping returns
    no comment for any array, and does not throw even where an entry of the
    array is [null]. *)
Theorem createComment_without_path (file : File) (chunk : Chunk) (items : list json) :
  falsyString (to file) = true ->
  createComment E file chunk (JArray items) = Ok [].
Proof.
  intros Hp. cbn [createComment].
  apply flatMapR_nil. intros x. now rewrite Hp.
Qed.

Lemma flatMapR_singletons {A B} (f : A -> result (list B)) (P : B -> Prop)
      (l : list A) (out : list B) :
  (forall x ys, f x = Ok ys -> List.length ys = 1%nat /\ Forall P ys) ->
  flatMapR f l = Ok out ->
  List.length out = List.length l /\ Forall P out.
Proof.
  intros Hf. revert out; induction l as [|x l IH]; intros out H.
  - injection H as <-. split; [reflexivity | constructor].
  - cbn [flatMapR] in H. destruct (f x) as [ys|e] eqn:Hx; [|discriminate].
    cbn [rbind] in H. destruct (flatMapR f l) as [zs|e] eqn:Hl; [|discriminate].
    cbn [rbind] in H. injection H as <-.
    destruct (Hf x ys Hx) as [Hlen Hys]. destruct (IH zs eq_refl) as [Hlz Hzs].
    split.
    + rewrite length_app, Hlen, Hlz. reflexivity.
    + apply Forall_app. auto.
Qed.

Lemma createComment_entry (file : File) (p : string) (item : json) (ys : list Comment) :
  to file = Some p -> p <> "" ->
  (if falsyString (to file) then Ok []
   else rbind (getProp item "reviewComment") (fun b =>
        rbind (getProp item "lineNumber") (fun l =>
        rbind (Number E l) (fun n =>
        Ok [ {| body := b; path := orElse (to file) ""; line := n |} ])))) = Ok ys ->
  List.length ys = 1%nat /\ Forall (fun c => path c = p) ys.
Proof.
  intros Hto Hp. rewrite Hto. cbn [falsyString orElse].
  destruct (String.eqb_spec p "") as [|_]; [contradiction|].
  destruct (getProp item "reviewComment") as [b|e]; [|discriminate].
  destruct (getProp item "lineNumber") as [l|e]; [|discriminate].
  cbn [rbind]. destruct (Number E l) as [x|e]; [|discriminate].
  cbn [rbind]. intros H. injection H as <-.
  split; [reflexivity|]. constructor; [reflexivity | constructor].
Qed.

(** X11: for a file with a destination path, when the comment mapping
    returns, it returns one comment for every entry of the array, each bound
    to that path; nothing about an entry is checked, so an entry without the
    expected fields yields a comment all the same. *)
Theorem createComment_one_per_entry (file : File) (chunk : Chunk) (p : string)
        (items : list json) (comments : list Comment) :
  to file = Some p -> p <> "" ->
  createComment E file chunk (JArray items) = Ok comments ->
  List.length comments = List.length items /\
  Forall (fun c => path c = p) comments.
Proof.
  intros Hto Hp H. cbn [createComment] in H.
  refine (flatMapR_singletons _ _ items comments _ H).
  intros x ys Hx. exact (createComment_entry file p x ys Hto Hp Hx).
Qed.

Lemma flatMapR_throws {A B} (f : A -> result (list B)) (l : list A) (x : A) :
  In x l -> (exists e, f x = Throw e) -> exists e, flatMapR f l = Throw e.
Proof.
  intros Hin Hx. induction l as [|y l IH]; [contradiction|].
  cbn [flatMapR]. destruct (f y) as [ys|e] eqn:Hy; cbn [rbind]; [|eauto].
  destruct Hin as [->|Hin].
  - destruct Hx as [e He]. congruence.
  - destruct (IH Hin) as [e He]. rewrite He. cbn [rbind]. eauto.
Qed.

(** X12: for a file with a destination path, an array that holds [null]
    makes the comment mapping throw. *)
Theorem createComment_null_entry (file : File) (chunk : Chunk) (p : string)
        (items : list json) :
  to file = Some p -> p <> "" ->
  In JNull items ->
  exists e, createComment E file chunk (JArray items) = Throw e.
Proof.
  intros Hto Hp Hin. cbn [createComment].
  apply (flatMapR_throws _ items JNull Hin).
  rewrite Hto. cbn [falsyString].
  destruct (String.eqb_spec p "") as [|_]; [contradiction|].
  eexists. reflexivity.
Qed.

(** *** The loop as a whole *)

Lemma extend_nil (m : M (list Comment)) : extend [] m = m.
Proof. now destruct m as [t [c|e]]. Qed.

Lemma reviewChunk_extend (prDetails : PRDetails) (file : File)
      (comments : list Comment) (chunk : Chunk) :
  reviewChunk E prDetails file comments chunk =
  extend comments (reviewChunk E prDetails file [] chunk).
Proof.
  unfold reviewChunk.
  destruct (getAIResponse E _) as [t [v|e]]; cbn [bind]; [|reflexivity].
  destruct (truthy v).
  - destruct (createComment E file chunk v) as [new|e]; cbn; reflexivity.
  - cbn. now rewrite !app_nil_r.
Qed.

Lemma foldM_extend {A} (f : list Comment -> A -> M (list Comment)) (l : list A) :
  (forall s x, f s x = extend s (f [] x)) ->
  forall s, foldM f l s = extend s (foldM f l []).
Proof.
  intros Hf. induction l as [|x l IH]; intros s.
  - cbn. now rewrite app_nil_r.
  - cbn [foldM]. rewrite (Hf s x).
    destruct (f [] x) as [t [new|e]]; cbn [extend bind]; [|reflexivity].
    rewrite (IH (s ++ new)%list), (IH new).
    destruct (foldM f l []) as [t' [more|e]]; cbn [extend]; [|reflexivity].
    now rewrite app_assoc.
Qed.

Lemma reviewFile_extend (prDetails : PRDetails) (comments : list Comment) (file : File) :
  reviewFile E prDetails comments file = extend comments (reviewFile E prDetails [] file).
Proof.
  unfold reviewFile. destruct (isDeleted file).
  - cbn. now rewrite app_nil_r.
  - apply foldM_extend. intros. apply reviewChunk_extend.
Qed.

(** X13: the analysis is compositional and only ever appends: analysing two
    lists of files one after the other gives the events of the first
    analysis followed by those of the second and the comments of the first
    followed by those of the second; when the first throws, the second is
    not started. *)
Theorem analyzeCode_app (prDetails : PRDetails) (files1 files2 : list File) :
  analyzeCode E (files1 ++ files2) prDetails =
  bind (analyzeCode E files1 prDetails)
       (fun comments1 => extend comments1 (analyzeCode E files2 prDetails)).
Proof.
  unfold analyzeCode. rewrite foldM_app. apply bind_ext. intros c1.
  apply foldM_extend. intros. apply reviewFile_extend.
Qed.

Lemma completionCalls_app (t1 t2 : list event) :
  completionCalls (t1 ++ t2) = (completionCalls t1 ++ completionCalls t2)%list.
Proof. apply filter_app. Qed.

Lemma reviewChunk_calls (prDetails : PRDetails) (file : File)
      (comments : list Comment) (chunk : Chunk) :
  completionCalls (fst (reviewChunk E prDetails file comments chunk)) =
  [completionCall E (createPrompts file chunk prDetails)].
Proof.
  unfold reviewChunk. rewrite fst_bind, completionCalls_app.
  set (prompts := createPrompts file chunk prDetails).
  assert (Hc : completionCalls (fst (getAIResponse E prompts)) = [completionCall E prompts]).
  { destruct (axios_post E apiUrl (payloadOf prompts)) as [data|e] eqn:H.
    - rewrite (getAIResponse_answered E _ _ H).
      now destruct (rbind (responseText data) (JSON_parse E)).
    - now rewrite (getAIResponse_rejected E _ _ H). }
  rewrite Hc. destruct (snd (getAIResponse E prompts)) as [v|e]; [|reflexivity].
  destruct (truthy v); [|reflexivity].
  now destruct (createComment E file chunk v).
Qed.

Lemma flat_map_singleton {A B} (h : A -> B) (l : list A) :
  flat_map (fun x => [h x]) l = map h l.
Proof. induction l as [|x l IH]; [reflexivity|]. cbn. now rewrite IH. Qed.

Lemma reviewChunk_calls_first (prDetails : PRDetails) (file : File)
      (comments : list Comment) (chunk : Chunk) :
  exists t,
    fst (reviewChunk E prDetails file comments chunk) =
    completionCall E (createPrompts file chunk prDetails) :: t.
Proof.
  unfold reviewChunk. rewrite fst_bind.
  set (prompts := createPrompts file chunk prDetails).
  destruct (axios_post E apiUrl (payloadOf prompts)) as [data|e] eqn:H.
  - rewrite (getAIResponse_answered E _ _ H).
    destruct (rbind (responseText data) (JSON_parse E)); cbn [fst app]; eauto.
  - rewrite (getAIResponse_rejected E _ _ H). cbn [fst app]. eauto.
Qed.

(** The completion requests of a loop are a prefix of one request list per
    item, and all of it when the loop returns. *)
Lemma foldM_calls {A S} (f : S -> A -> M S) (g : A -> list event) (l : list A) :
  (forall s x, exists rest,
      g x = (completionCalls (fst (f s x)) ++ rest)%list /\
      (forall s', snd (f s x) = Ok s' -> rest = [])) ->
  forall s, exists rest,
    flat_map g l = (completionCalls (fst (foldM f l s)) ++ rest)%list /\
    (forall s', snd (foldM f l s) = Ok s' -> rest = []).
Proof.
  intros Hf. induction l as [|x l IH]; intros s.
  - exists []. split; [reflexivity | auto].
  - cbn [foldM flat_map]. destruct (Hf s x) as (rest & Hg & Hok).
    destruct (f s x) as [t [s1|e]] eqn:Hx; cbn [fst snd] in *.
    + rewrite (Hok s1 eq_refl), app_nil_r in Hg.
      destruct (IH s1) as (rest' & Hl & Hok').
      exists rest'. rewrite bind_ok. cbn [fst snd].
      rewrite completionCalls_app, Hg, Hl, app_assoc. split; [reflexivity | exact Hok'].
    + exists (rest ++ flat_map g l)%list. cbn [bind fst snd].
      rewrite Hg, app_assoc. split; [reflexivity | discriminate].
Qed.

(** X14: the analysis sends one completion request for every hunk of every
    file that is not deleted, in the order of the diff, and no other; when
    it throws, the requests sent are those up to the hunk that threw. *)
Theorem analyzeCode_calls (prDetails : PRDetails) (files : list File) :
  exists rest,
    expectedCalls E prDetails files =
    (completionCalls (fst (analyzeCode E files prDetails)) ++ rest)%list /\
    (forall comments, snd (analyzeCode E files prDetails) = Ok comments -> rest = []).
Proof.
  unfold analyzeCode, expectedCalls. apply foldM_calls.
  intros s file. unfold reviewFile. destruct (isDeleted file).
  - exists []. split; [reflexivity | auto].
  - rewrite <- flat_map_singleton. apply foldM_calls.
    intros s' chunk. exists []. rewrite reviewChunk_calls.
    split; [reflexivity | auto].
Qed.

Lemma foldM_inv {A S} (P : S -> Prop) (f : S -> A -> M S) (l : list A) :
  (forall s x t s', In x l -> P s -> f s x = (t, Ok s') -> P s') ->
  forall s t s', P s -> foldM f l s = (t, Ok s') -> P s'.
Proof.
  induction l as [|x l IH]; intros Hf s t s' Hs H.
  - injection H as _ <-. exact Hs.
  - cbn [foldM] in H. destruct (f s x) as [t1 [s1|e]] eqn:Hx; [|discriminate].
    rewrite bind_ok in H. destruct (foldM f l s1) as [t2 r2] eqn:Hl.
    cbn [fst snd] in H. injection H as _ ->.
    apply (IH (fun s x t s' Hin => Hf s x t s' (or_intror Hin)) s1 t2 s'); [|exact Hl].
    apply (Hf s x t1 s1); [now left | exact Hs | exact Hx].
Qed.

Lemma reviewChunk_new_comments (prDetails : PRDetails) (file : File)
      (comments : list Comment) (chunk : Chunk) (t : list event) (out : list Comment) :
  reviewChunk E prDetails file comments chunk = (t, Ok out) ->
  exists new,
    out = (comments ++ new)%list /\
    (falsyString (to file) = true -> new = []) /\
    (forall p, to file = Some p -> Forall (fun c => path c = p) new).
Proof.
  unfold reviewChunk.
  destruct (getAIResponse E _) as [t1 [v|e]]; [|discriminate].
  rewrite bind_ok. destruct (truthy v).
  - destruct (createComment E file chunk v) as [new|e] eqn:Hc; [|discriminate].
    cbn. intros [= _ <-]. exists new. split; [reflexivity|]. split.
    + intros Hp. exact (createComment_pathless file chunk v new Hp Hc).
    + intros p Hto. destruct (String.eqb_spec p "") as [->|Hp].
      * assert (Hnil : new = []).
        { apply (createComment_pathless file chunk v); [now rewrite Hto | exact Hc]. }
        rewrite Hnil. constructor.
      * destruct v; try discriminate. cbn [createComment] in Hc.
        refine (proj2 (flatMapR_singletons _ _ items new _ Hc)).
        intros x ys Hx. exact (createComment_entry file p x ys Hto Hp Hx).
  - cbn. intros [= _ <-]. exists []. rewrite app_nil_r.
    split; [reflexivity|]. split; [reflexivity | constructor].
Qed.

(** X15: every comment that the analysis returns is bound to the destination
    path of a file of the diff, and that path is neither empty nor
    [/dev/null]: deleted files and files without a path never get a
    comment. *)
Theorem analyzeCode_comment_paths (prDetails : PRDetails) (files : list File)
        (t : list event) (comments : list Comment) :
  analyzeCode E files prDetails = (t, Ok comments) ->
  Forall (commentOf files) comments.
Proof.
  unfold analyzeCode. apply (foldM_inv (Forall (commentOf files))); [|constructor].
  intros s file t1 s1 Hfile Hs. unfold reviewFile.
  destruct (isDeleted file) eqn:Hdel.
  - now intros [= _ <-].
  - apply (foldM_inv (Forall (commentOf files))); [|exact Hs].
    intros s2 chunk t2 s3 _ Hs2 Hstep.
    destruct (reviewChunk_new_comments _ _ _ _ _ _ Hstep) as (new & -> & Hnil & Hpath).
    apply Forall_app. split; [exact Hs2|].
    destruct (to file) as [p|] eqn:Hto; [|rewrite Hnil by reflexivity; constructor].
    destruct (String.eqb_spec p "") as [->|Hp];
      [rewrite Hnil by reflexivity; constructor|].
    refine (Forall_impl _ _ (Hpath p eq_refl)). intros c Hc.
    exists file. rewrite Hc. repeat split; auto.
    intros ->. unfold isDeleted in Hdel. rewrite Hto in Hdel. discriminate Hdel.
Qed.

(** X16: a file without a destination path is analysed all the same: its
    first hunk is sent to the completion endpoint, but whatever is answered,
    the file adds no comment: its turn either leaves the comments as they
    are or throws. *)
Theorem pathless_file_costs_calls_only (prDetails : PRDetails) (file : File)
        (comments : list Comment) (chunk : Chunk) (later : list Chunk) :
  falsyString (to file) = true ->
  chunks file = chunk :: later ->
  exists t r,
    reviewFile E prDetails comments file =
      (completionCall E (createPrompts file chunk prDetails) :: t, r) /\
    (r = Ok comments \/ exists e, r = Throw e).
Proof.
  intros Hp Hc.
  assert (Hdel : isDeleted file = false).
  { unfold isDeleted. destruct (to file) as [p|]; [|reflexivity].
    cbn in Hp. apply String.eqb_eq in Hp. now subst p. }
  destruct (reviewFile E prDetails comments file) as [t r] eqn:Hr.
  assert (Hhead : exists t', t = completionCall E (createPrompts file chunk prDetails) :: t').
  { assert (Ht := f_equal fst Hr). unfold reviewFile in Ht.
    rewrite Hdel, Hc in Ht. cbn [foldM] in Ht. rewrite fst_bind in Ht. cbn [fst] in Ht.
    destruct (reviewChunk_calls_first prDetails file comments chunk) as [t1 H1].
    rewrite H1 in Ht. cbn [app] in Ht. eexists. symmetry. exact Ht. }
  destruct Hhead as [t' ->]. exists t', r. split; [reflexivity|].
  destruct r as [out|e]; [left | right; eauto].
  f_equal. unfold reviewFile in Hr. rewrite Hdel in Hr.
  refine (foldM_inv (fun s => s = comments) _ _ _ comments _ out eq_refl Hr).
  intros s x t1 s1 _ -> Hstep.
  destruct (reviewChunk_new_comments _ _ _ _ _ _ Hstep) as (new & -> & Hnil & _).
  rewrite Hnil by exact Hp. apply app_nil_r.
Qed.

(** X23: a completion that is the empty array, or a falsy value ([null],
    [false], [0], the empty string), is the quiet case: the hunk's turn
    consists of the completion request alone, nothing is logged and the
    comments stay as they are. *)
Theorem quiet_completion (prDetails : PRDetails) (file : File) (chunk : Chunk)
        (v : json) :
  answersWith E (createPrompts file chunk prDetails) v ->
  v = JArray [] \/ truthy v = false ->
  forall comments,
    reviewChunk E prDetails file comments chunk =
    ([completionCall E (createPrompts file chunk prDetails)], Ok comments).
Proof.
  intros (data & res & Hd & Hr & Hp) Hv comments. unfold reviewChunk.
  rewrite (getAIResponse_answered E _ _ Hd), Hr. cbn [rbind]. rewrite Hp.
  rewrite bind_ok. destruct Hv as [-> | Hf].
  - cbn. now rewrite app_nil_r.
  - rewrite Hf. reflexivity.
Qed.

(** *** Runs that stop early or fail *)

(** X17: when the event payload cannot be read, the run makes no request at
    all: it logs the error and exits with code 1. *)
Theorem unreadable_payload_aborts (e : exn) :
  eventPayload E = Throw e ->
  run E = ([EvConsoleError e; EvExit 1], Exited 1).
Proof.
  intros H. unfold run, main, retrieveDiff, getPRDetails. rewrite H. reflexivity.
Qed.

(** X18: when the request for the pull-request details is rejected, that
    request is the only one of the run: the error is logged and the run
    exits with code 1 without asking for a diff. *)
Theorem rejected_details_abort (ev : EventPayload) (e : exn) :
  eventPayload E = Ok ev ->
  pulls_get E (repository_owner_login ev) (repository_name ev) (number ev) = Throw e ->
  run E =
  ([EvPullsGet (repository_owner_login ev) (repository_name ev) (number ev);
    EvConsoleError e; EvExit 1], Exited 1).
Proof.
  intros Hev Hp. unfold run, main, retrieveDiff, getPRDetails, call, lift, bind.
  rewrite Hev, Hp. reflexivity.
Qed.

(** X19: when the diff that was retrieved is missing or empty, the run logs
    that no diff was found and completes: nothing is parsed, no completion
    request is sent and no review is created. *)
Theorem missing_diff_completes (t0 : list event) (prDetails : PRDetails)
        (diff : option string) :
  retrieveDiff E = (t0, Ok (Some (prDetails, diff))) ->
  falsyString diff = true ->
  run E = ((t0 ++ [EvConsoleLog ["No diff found"]])%list, Completed).
Proof.
  intros Hr Hd. unfold run, main. rewrite Hr, bind_ok.
  unfold reviewDiff. rewrite Hd. reflexivity.
Qed.

Lemma reviewCalls_main_early :
  (forall prDetails files, ~ reaches E prDetails files) ->
  reviewCalls (fst (main E)) = [].
Proof.
  intros Hnone. unfold main.
  rewrite fst_bind, reviewCalls_app, retrieveDiff_quiet.
  destruct (retrieveDiff E) as [t0 [[[prDetails diff]|]|e]] eqn:Hr;
    cbn [snd]; try reflexivity.
  unfold reviewDiff.
  destruct (falsyString diff) eqn:Hd; [reflexivity|].
  destruct (filteredDiff E (parseDiff E (orElse diff ""))) as [files|e] eqn:Hf;
    [|reflexivity].
  exfalso. apply (Hnone prDetails files). exists t0, diff. auto.
Qed.

(** X20: in every run, a review call, if there is one, is the last event of
    [main] and the only review call, and the list of comments it carries is
    not empty. *)
Theorem review_call_is_last :
  reviewCalls (fst (main E)) = [] \/
  exists t prDetails comments,
    comments <> [] /\
    reviewCalls t = [] /\
    fst (main E) =
    (t ++ [EvCreateReview (owner prDetails) (repo prDetails) (pull_number prDetails)
                          comments "COMMENT"])%list.
Proof.
  destruct (retrieveDiff E) as [t0 [[[prDetails diff]|]|e]] eqn:Hr.
  2-3: left; apply reviewCalls_main_early;
       intros pr files (t1 & d & H & _); rewrite Hr in H; discriminate H.
  destruct (falsyString diff) eqn:Hd.
  { left. apply reviewCalls_main_early.
    intros pr files (t1 & d & H & Hd' & _). rewrite Hr in H.
    injection H as _ _ <-. congruence. }
  destruct (filteredDiff E (parseDiff E (orElse diff ""))) as [files|e] eqn:Hf.
  2: { left. apply reviewCalls_main_early.
       intros pr files (t1 & d & H & _ & Hf'). rewrite Hr in H.
       injection H as _ _ <-. congruence. }
  assert (Hreach : reaches E prDetails files) by (exists t0, diff; auto).
  destruct (main_of_reaches E prDetails files Hreach) as (t1 & Hq & Hmain).
  pose proof (analyzeCode_quiet E files prDetails) as Hqa.
  destruct (analyzeCode E files prDetails) as [ta [[|c cs]|e]] eqn:Ha;
    cbn [fst] in Hqa.
  - left. rewrite Hmain. cbn. now rewrite app_nil_r, reviewCalls_app, Hq, Hqa.
  - right. exists (t1 ++ ta)%list, prDetails, (c :: cs).
    split; [discriminate|]. split; [now rewrite reviewCalls_app, Hq, Hqa|].
    rewrite Hmain. cbn [bind List.length Nat.ltb Nat.leb createReviewComment call].
    cbn [fst]. now rewrite app_assoc.
  - left. rewrite Hmain. cbn. now rewrite reviewCalls_app, Hq, Hqa.
Qed.

(** X21: a rejected review call is not caught: when the analysis ends with
    comments and the review call is rejected, the run logs the error and
    exits with code 1, the review call being its last request. *)
Theorem rejected_review_aborts (prDetails : PRDetails) (comments : list Comment)
        (e : exn) :
  aggregates E prDetails comments ->
  comments <> [] ->
  createReview E (owner prDetails) (repo prDetails) (pull_number prDetails)
               comments "COMMENT" = Throw e ->
  exists t,
    reviewCalls t = [] /\
    run E =
    ((t ++ [EvCreateReview (owner prDetails) (repo prDetails) (pull_number prDetails)
                           comments "COMMENT";
            EvConsoleError e; EvExit 1])%list,
     Exited 1).
Proof.
  intros (files & ta & Hreach & Ha) Hne Hrev.
  destruct (main_of_reaches E prDetails files Hreach) as (t0 & Hq & Hmain).
  pose proof (analyzeCode_quiet E files prDetails) as Hqa. rewrite Ha in Hqa.
  cbn [fst] in Hqa.
  exists (t0 ++ ta)%list. split; [now rewrite reviewCalls_app, Hq, Hqa|].
  unfold run. rewrite Hmain, Ha.
  destruct comments as [|c cs]; [contradiction|].
  cbn [bind List.length Nat.ltb Nat.leb createReviewComment call].
  rewrite Hrev. cbn [app]. rewrite <- !app_assoc. reflexivity.
Qed.

(** X22: an error thrown by the comment mapping of any analysed hunk is not
    caught: the run makes no review call, so the comments collected from
    earlier hunks are lost, and it logs the error and exits with code 1. *)
Theorem throwing_mapping_aborts (prDetails : PRDetails) (file : File) (chunk : Chunk)
        (v : json) (e : exn) :
  analyses E prDetails file chunk ->
  answersWith E (createPrompts file chunk prDetails) v ->
  truthy v = true ->
  createComment E file chunk v = Throw e ->
  exists t e',
    main E = (t, Throw e') /\
    reviewCalls t = [] /\
    run E = ((t ++ [EvConsoleError e'; EvExit 1])%list, Exited 1).
Proof.
  intros (files & Hreach & Hfile & Hdel & Hchunk) (data & res & Hd & Hr & Hp) Htruthy Hc.
  assert (Hstep : forall comments, exists t e',
             reviewChunk E prDetails file comments chunk = (t, Throw e')).
  { intros comments. unfold reviewChunk.
    rewrite (getAIResponse_answered E _ _ Hd), Hr. cbn [rbind]. rewrite Hp.
    exists [completionCall E (createPrompts file chunk prDetails)], e.
    rewrite bind_ok. rewrite Htruthy, Hc. reflexivity. }
  assert (Hfile_throws : forall s, exists t e', reviewFile E prDetails s file = (t, Throw e')).
  { intros s. unfold reviewFile. rewrite Hdel.
    apply (foldM_throws _ _ chunk Hchunk). exact Hstep. }
  destruct (foldM_throws _ _ file Hfile Hfile_throws []) as (ta & e' & Ha).
  destruct (main_of_reaches E prDetails files Hreach) as (t0 & Hq & Hmain).
  fold (analyzeCode E files prDetails) in Ha.
  assert (Hm : main E = ((t0 ++ ta)%list, Throw e')).
  { rewrite Hmain, Ha. reflexivity. }
  exists (t0 ++ ta)%list, e'. repeat split.
  - exact Hm.
  - rewrite reviewCalls_app, Hq. pose proof (analyzeCode_quiet E files prDetails) as Hqa.
    now rewrite Ha in Hqa.
  - unfold run. now rewrite Hm.
Qed.

End Coverage.

(** *** Instances on the example worlds *)

Lemma world_reaches (answer : result ChatResponse) (review : result unit) :
  reaches (world (Ok (samplePayload (Some "opened"))) (Ok samplePull) (Ok sampleDiff)
                 answer review)
          samplePRDetails [sampleFile; deletedFile].
Proof.
  exists [EvPullsGet "octo" "demo" 7; EvPullsGetDiff "octo" "demo" 7], sampleDiff.
  repeat split; reflexivity.
Qed.

Lemma world_analyses (answer : result ChatResponse) (review : result unit) :
  analyses (world (Ok (samplePayload (Some "opened"))) (Ok samplePull) (Ok sampleDiff)
                  answer review)
           samplePRDetails sampleFile sampleChunk.
Proof.
  exists [sampleFile; deletedFile].
  split; [apply world_reaches|]. repeat split; simpl; auto.
Qed.

Lemma escapeString_first_only_witness :
  escapeString ("say " ++ DQ ++ "hi" ++ DQ ++ " in " ++ BT ++ "sh" ++ BT) =
  "say " ++ BS ++ DQ ++ "hi" ++ DQ ++ " in " ++ BS ++ BT ++ "sh" ++ BT.
Proof.
  exact (proj1 (proj2 (proj2 (escapeString_first_only "say " ("hi" ++ DQ ++ " in ")
                                ("sh" ++ BT) eq_refl eq_refl))) eq_refl).
Defined.

Lemma no_choice_is_a_failure_witness :
  let E := world (Ok (samplePayload (Some "opened"))) (Ok samplePull) (Ok sampleDiff)
                 (Ok {| choices := [] |}) (Ok tt) in
  reviewChunk E samplePRDetails sampleFile [] sampleChunk =
  ([completionCall E (createPrompts sampleFile sampleChunk samplePRDetails);
    EvConsoleError (TypeError "Cannot read properties of undefined (reading 'message')")],
   Ok []).
Proof.
  intros E.
  exact (no_choice_is_a_failure E samplePRDetails sampleFile sampleChunk
           {| choices := [] |} eq_refl eq_refl []).
Defined.

Lemma createComment_without_path_witness :
  createComment (sampleEnv (Some "opened") "" (Ok None)) pathlessFile sampleChunk
                (JArray [JNull; JObject []]) = Ok [].
Proof.
  exact (createComment_without_path _ pathlessFile sampleChunk _ eq_refl).
Defined.

Lemma createComment_one_per_entry_witness :
  let comments :=
    [ {| body := Some (JString "Use const."); path := "src/a.ts"; line := 2%float |};
      {| body := None; path := "src/a.ts"; line := nan |} ] in
  createComment (sampleEnv (Some "opened") "" (Ok None)) sampleFile sampleChunk
    (JArray [ JObject [ ("lineNumber", JNumber 2%float);
                        ("reviewComment", JString "Use const.") ];
              JString "no fields" ]) = Ok comments /\
  List.length comments = 2%nat /\
  Forall (fun c => path c = "src/a.ts") comments.
Proof.
  intros comments.
  assert (H : createComment (sampleEnv (Some "opened") "" (Ok None)) sampleFile sampleChunk
                (JArray [ JObject [ ("lineNumber", JNumber 2%float);
                                    ("reviewComment", JString "Use const.") ];
                          JString "no fields" ]) = Ok comments) by reflexivity.
  split; [exact H|].
  refine (createComment_one_per_entry _ sampleFile sampleChunk "src/a.ts" _ comments
            eq_refl _ H).
  discriminate.
Defined.

Lemma createComment_null_entry_witness :
  exists e,
    createComment (sampleEnv (Some "opened") "" (Ok None)) sampleFile sampleChunk
                  (JArray [JObject []; JNull]) = Throw e.
Proof.
  refine (createComment_null_entry _ sampleFile sampleChunk "src/a.ts" _ eq_refl _ _).
  - discriminate.
  - right. left. reflexivity.
Defined.

Lemma analyzeCode_calls_witness :
  let E := sampleEnv (Some "opened") "" (Ok (Some sampleAnswer)) in
  completionCalls (fst (analyzeCode E [sampleFile; deletedFile; pathlessFile] samplePRDetails)) =
  [ completionCall E (createPrompts sampleFile sampleChunk samplePRDetails);
    completionCall E (createPrompts pathlessFile sampleChunk samplePRDetails) ].
Proof.
  intros E.
  destruct (analyzeCode_calls E samplePRDetails [sampleFile; deletedFile; pathlessFile])
    as (rest & Hcalls & Hdone).
  rewrite (Hdone _ eq_refl), app_nil_r in Hcalls.
  symmetry. exact Hcalls.
Defined.

Lemma analyzeCode_comment_paths_witness :
  Forall (commentOf [sampleFile; deletedFile; pathlessFile])
    [ {| body := Some (JString "Use const."); path := "src/a.ts"; line := 2%float |} ].
Proof.
  exact (analyzeCode_comment_paths (sampleEnv (Some "opened") "" (Ok (Some sampleAnswer)))
           samplePRDetails [sampleFile; deletedFile; pathlessFile] _ _ eq_refl).
Defined.

Lemma pathless_file_costs_calls_only_witness :
  let E := sampleEnv (Some "opened") "" (Ok (Some sampleAnswer)) in
  reviewFile E samplePRDetails [] pathlessFile =
  ([completionCall E (createPrompts pathlessFile sampleChunk samplePRDetails)], Ok []).
Proof.
  intros E.
  destruct (pathless_file_costs_calls_only E samplePRDetails pathlessFile []
              sampleChunk [] eq_refl eq_refl) as (t & r & Hrun & _).
  reflexivity.
Defined.

Lemma quiet_completion_witness :
  let E := world (Ok (samplePayload (Some "opened"))) (Ok samplePull) (Ok sampleDiff)
                 (Ok (answerOf "[]")) (Ok tt) in
  reviewChunk E samplePRDetails sampleFile [] sampleChunk =
  ([completionCall E (createPrompts sampleFile sampleChunk samplePRDetails)], Ok []).
Proof.
  intros E.
  assert (Hv : answersWith E (createPrompts sampleFile sampleChunk samplePRDetails)
                 (JArray [])).
  { eexists. eexists. repeat split; reflexivity. }
  exact (quiet_completion E samplePRDetails sampleFile sampleChunk _ Hv
           (or_introl eq_refl) []).
Defined.

Lemma unreadable_payload_aborts_witness :
  run (world (Throw (SyntaxError "Unexpected end of JSON input")) (Ok samplePull)
             (Ok sampleDiff) (Ok (answerOf "[]")) (Ok tt)) =
  ([EvConsoleError (SyntaxError "Unexpected end of JSON input"); EvExit 1], Exited 1).
Proof.
  apply unreadable_payload_aborts. reflexivity.
Defined.

Lemma rejected_details_abort_witness :
  run (world (Ok (samplePayload (Some "opened"))) (Throw (RequestError "Not Found"))
             (Ok sampleDiff) (Ok (answerOf "[]")) (Ok tt)) =
  ([EvPullsGet "octo" "demo" 7; EvConsoleError (RequestError "Not Found"); EvExit 1],
   Exited 1).
Proof.
  apply (rejected_details_abort _ (samplePayload (Some "opened"))); reflexivity.
Defined.

Lemma missing_diff_completes_witness :
  run (world (Ok (samplePayload (Some "opened"))) (Ok samplePull) (Ok (Some ""))
             (Ok (answerOf "[]")) (Ok tt)) =
  ([EvPullsGet "octo" "demo" 7; EvPullsGetDiff "octo" "demo" 7;
    EvConsoleLog ["No diff found"]], Completed).
Proof.
  apply (missing_diff_completes _ [EvPullsGet "octo" "demo" 7; EvPullsGetDiff "octo" "demo" 7]
           samplePRDetails (Some "")); reflexivity.
Defined.

Lemma rejected_review_aborts_witness :
  let E := world (Ok (samplePayload (Some "opened"))) (Ok samplePull) (Ok sampleDiff)
                 (Ok (answerOf sampleAnswer)) (Throw (RequestError "Unprocessable")) in
  snd (run E) = Exited 1.
Proof.
  intros E.
  assert (Ha : aggregates E samplePRDetails
                 [ {| body := Some (JString "Use const."); path := "src/a.ts";
                      line := 2%float |} ]).
  { exists [sampleFile; deletedFile]. eexists.
    split; [apply world_reaches | reflexivity]. }
  destruct (rejected_review_aborts E samplePRDetails _ (RequestError "Unprocessable") Ha)
    as (t & _ & Hrun); [discriminate | reflexivity |].
  rewrite Hrun. reflexivity.
Defined.

Lemma throwing_mapping_aborts_witness :
  let E := world (Ok (samplePayload (Some "opened"))) (Ok samplePull) (Ok sampleDiff)
                 (Ok (answerOf "[null]")) (Ok tt) in
  snd (run E) = Exited 1.
Proof.
  intros E.
  assert (Hv : answersWith E (createPrompts sampleFile sampleChunk samplePRDetails)
                 (JArray [JNull])).
  { eexists. eexists. repeat split; reflexivity. }
  destruct (throwing_mapping_aborts E samplePRDetails sampleFile sampleChunk
              (JArray [JNull])
              (TypeError "Cannot read properties of null (reading 'reviewComment')")
              (world_analyses _ _) Hv eq_refl eq_refl)
    as (t & e' & _ & _ & Hrun).
  rewrite Hrun. reflexivity.
Defined.

End ReviewSpec.
